(** * The code executor of the judge backend (backend/code_executor.py)

    A shallow embedding of [CodeExecutor]: the dispatch on the language
    ([execute_code]), the two real runners ([_execute_python],
    [_execute_javascript]), the two mocked ones ([_execute_java],
    [_execute_cpp]) and the grading loop ([test_solution]).

    Python [str] values are sequences of Unicode code points, Python
    [float] values are the binary64 numbers of the kernel, exceptions and
    the operating system are explicit: every method is a computation in a
    state-and-exception monad over an abstract host. *)

From Stdlib Require Import List String Ascii ZArith NArith QArith Qround Bool Lia.
From Stdlib Require Import Floats Uint63.
Import ListNotations.

Set Implicit Arguments.

(** ** Python strings *)

Module Str.

(** A [str] is a list of code points. *)
Definition char := N.
Definition str := list char.

(** A literal of the source, written as an ASCII string. *)
Definition lit (s : string) : str :=
  List.map N_of_ascii (list_ascii_of_string s).

Definition eqb (a b : str) : bool :=
  if list_eq_dec N.eq_dec a b then true else false.

(** [str.isspace] on one code point, the class that [str.strip()] removes:
    U+0009..U+000D, U+001C..U+0020, U+0085, U+00A0, U+1680, U+2000..U+200A,
    U+2028, U+2029, U+202F, U+205F, U+3000. *)
Definition isspace (c : char) : bool :=
  (((9 <=? c) && (c <=? 13)) || ((28 <=? c) && (c <=? 32))
   || (c =? 133) || (c =? 160) || (c =? 5760)
   || ((8192 <=? c) && (c <=? 8202))
   || (c =? 8232) || (c =? 8233) || (c =? 8239) || (c =? 8287)
   || (c =? 12288))%N.

Fixpoint lstrip (s : str) : str :=
  match s with
  | [] => []
  | c :: s' => if isspace c then lstrip s' else s
  end.

Definition rstrip (s : str) : str := rev (lstrip (rev s)).

(** [s.strip()]: drop the leading, then the trailing, white space. *)
Definition strip (s : str) : str := rstrip (lstrip s).

(** No white space at either end. *)
Definition trimmed (s : str) : Prop :=
  (forall c, hd_error s = Some c -> isspace c = false) /\
  (forall c, hd_error (rev s) = Some c -> isspace c = false).

Definition blank (s : str) : Prop := Forall (fun c => isspace c = true) s.

End Str.

Import Str.

Section StrFacts.

Lemma eqb_eq (a b : str) : Str.eqb a b = true <-> a = b.
Proof.
  unfold Str.eqb. destruct (list_eq_dec N.eq_dec a b); split; congruence.
Qed.

Lemma eqb_neq (a b : str) : Str.eqb a b = false <-> a <> b.
Proof.
  unfold Str.eqb. destruct (list_eq_dec N.eq_dec a b); split; congruence.
Qed.

Lemma lstrip_split (s : str) :
  exists l, blank l /\ s = l ++ lstrip s.
Proof.
  induction s as [|c s IH]; simpl.
  - exists []. split; [constructor | reflexivity].
  - destruct (isspace c) eqn:Hc.
    + destruct IH as [l [Hl Hs]]. exists (c :: l). split.
      * constructor; assumption.
      * simpl. congruence.
    + exists []. split; [constructor | reflexivity].
Qed.

Lemma lstrip_head (s : str) (c : char) :
  hd_error (lstrip s) = Some c -> isspace c = false.
Proof.
  induction s as [|d s IH]; simpl; [discriminate|].
  destruct (isspace d) eqn:Hd; [exact IH|].
  simpl. intros [= <-]. exact Hd.
Qed.

Lemma lstrip_fixed (s : str) :
  (forall c, hd_error s = Some c -> isspace c = false) -> lstrip s = s.
Proof.
  destruct s as [|c s]; simpl; [reflexivity|].
  intros H. rewrite (H c eq_refl). reflexivity.
Qed.

Lemma lstrip_blank_app (l s : str) : blank l -> lstrip (l ++ s) = lstrip s.
Proof.
  induction 1 as [|c l Hc _ IH]; simpl; [reflexivity|].
  rewrite Hc. exact IH.
Qed.

Lemma lstrip_app_keep (s t : str) :
  lstrip s <> [] -> lstrip (s ++ t) = lstrip s ++ t.
Proof.
  induction s as [|c s IH]; simpl; [congruence|].
  destruct (isspace c); [exact IH | reflexivity].
Qed.

Lemma lstrip_all_blank (s : str) : blank s -> lstrip s = [].
Proof.
  intros H. rewrite <- (app_nil_r s). rewrite lstrip_blank_app by assumption.
  reflexivity.
Qed.

Lemma blank_rev (s : str) : blank s -> blank (rev s).
Proof. unfold blank. apply Forall_rev. Qed.

Lemma rstrip_split (s : str) :
  exists r, blank r /\ s = rstrip s ++ r.
Proof.
  unfold rstrip. destruct (lstrip_split (rev s)) as [l [Hl Hs]].
  exists (rev l). split.
  - apply blank_rev; assumption.
  - rewrite <- rev_app_distr, <- Hs, rev_involutive. reflexivity.
Qed.

Lemma rstrip_last (s : str) (c : char) :
  hd_error (rev (rstrip s)) = Some c -> isspace c = false.
Proof.
  unfold rstrip. rewrite rev_involutive. apply lstrip_head.
Qed.

Lemma rstrip_head (s : str) (c : char) :
  (forall d, hd_error s = Some d -> isspace d = false) ->
  hd_error (rstrip s) = Some c -> isspace c = false.
Proof.
  intros Hs Hc. destruct (rstrip_split s) as [r [Hr Heq]].
  destruct (rstrip s) as [|d u] eqn:Hu; [discriminate|].
  simpl in Hc. injection Hc as ->.
  apply Hs. rewrite Heq. reflexivity.
Qed.

(** The result of [strip] has no white space at either end. *)
Lemma strip_trimmed (s : str) : trimmed (strip s).
Proof.
  split; intros c Hc.
  - unfold strip in Hc. eapply rstrip_head; [|exact Hc].
    intros d. apply lstrip_head.
  - unfold strip in Hc. eapply rstrip_last; exact Hc.
Qed.

(** A string with no white space at either end is left as it is. *)
Lemma strip_fixed (s : str) : trimmed s -> strip s = s.
Proof.
  intros [Hh Hl]. unfold strip, rstrip.
  rewrite (lstrip_fixed s Hh), (lstrip_fixed (rev s) Hl).
  apply rev_involutive.
Qed.

Lemma strip_idempotent (s : str) : strip (strip s) = strip s.
Proof. apply strip_fixed, strip_trimmed. Qed.

(** [strip] removes a blank prefix and a blank suffix, and nothing else. *)
Lemma strip_split (s : str) :
  exists l r, blank l /\ blank r /\ s = l ++ strip s ++ r.
Proof.
  destruct (lstrip_split s) as [l [Hl Hs]].
  destruct (rstrip_split (lstrip s)) as [r [Hr Hm]].
  exists l, r. repeat split; try assumption.
  unfold strip. rewrite <- Hm. exact Hs.
Qed.

Lemma rstrip_blank_app (s r : str) : blank r -> rstrip (s ++ r) = rstrip s.
Proof.
  intros Hr. unfold rstrip. rewrite rev_app_distr.
  rewrite lstrip_blank_app by (apply blank_rev; assumption). reflexivity.
Qed.

Lemma rstrip_fixed (s : str) :
  (forall c, hd_error (rev s) = Some c -> isspace c = false) -> rstrip s = s.
Proof.
  intros H. unfold rstrip. rewrite lstrip_fixed by assumption.
  apply rev_involutive.
Qed.

(** Surrounding white space is invisible to [strip]. *)
Lemma strip_blank_around (l m r : str) :
  blank l -> blank r -> trimmed m -> strip (l ++ m ++ r) = m.
Proof.
  intros Hl Hr [Hh Ht]. unfold strip.
  rewrite lstrip_blank_app by assumption.
  destruct m as [|c m].
  - simpl. rewrite lstrip_all_blank by assumption. reflexivity.
  - assert (E : lstrip ((c :: m) ++ r) = (c :: m) ++ r).
    { simpl. rewrite (Hh c eq_refl). reflexivity. }
    rewrite E, rstrip_blank_app by assumption.
    apply rstrip_fixed. exact Ht.
Qed.

End StrFacts.

(** ** Python numbers

    A [float] of Python is an IEEE 754 binary64 number, with the rounding to
    nearest, ties to even, of the kernel's [float]. An [int] is a [Z]. *)

Module Num.

(** [float(n)] as the arithmetic does it when an [int] meets a [float]; the
    numbers that occur are lengths of lists, below 2^63. *)
Definition float_of_int (n : Z) : float :=
  if (n <? 0)%Z
  then PrimFloat.opp (PrimFloat.of_uint63 (Uint63.of_Z (- n)))
  else PrimFloat.of_uint63 (Uint63.of_Z n).

(** [not x]: a float is falsy when it compares equal to zero. *)
Definition is_zero (x : float) : bool := PrimFloat.eqb x 0.

(** The rational that a finite float stands for (0 for the others). *)
Definition exact (x : float) : Q :=
  match Prim2SF x with
  | S754_finite s m e =>
      let magnitude :=
        if (0 <=? e)%Z
        then inject_Z (Z.pos m * 2 ^ e)
        else Z.pos m # Pos.shiftl 1 (Z.to_N (- e)) in
      if s then Qopp magnitude else magnitude
  | _ => 0
  end.

End Num.

(** ** models.py *)

Inductive SubmissionStatusEnum : Set :=
| ACCEPTED
| WRONG_ANSWER
| TIME_LIMIT_EXCEEDED
| MEMORY_LIMIT_EXCEEDED
| RUNTIME_ERROR
| COMPILE_ERROR.

Definition status_eq_dec (a b : SubmissionStatusEnum) : {a = b} + {a <> b}.
Proof. decide equality. Defined.

Definition status_eqb (a b : SubmissionStatusEnum) : bool :=
  if status_eq_dec a b then true else false.

Inductive LanguageEnum : Set := PYTHON | JAVASCRIPT | JAVA | CPP.

(** [LanguageEnum] derives from [str]: a member compares equal to its value,
    so [language == LanguageEnum.PYTHON] is a comparison of strings. *)
Definition value (l : LanguageEnum) : str :=
  match l with
  | PYTHON => lit "python"
  | JAVASCRIPT => lit "javascript"
  | JAVA => lit "java"
  | CPP => lit "cpp"
  end.

(** A test case as [test_solution] reads it: the keys ['input'] and
    ['expected_output']. *)
Record TestCase : Type := {
  input : str;
  expected_output : str;
  is_hidden : bool
}.

(** [CodeExecutionResult]. The two [Optional[float]] fields hold floats: the
    model class converts an [int] given for them, such as the [0] of an
    empty submission, to the float of the same value. *)
Record CodeExecutionResult : Type := {
  status : SubmissionStatusEnum;
  output : str;
  runtime : option float;
  memory : option float;
  passed_tests : Z;
  total_tests : Z;
  error_message : option str
}.

(** ** Exceptions and the host *)

(** The exceptions that derive from [Exception]: the one that
    [subprocess.run] raises at its time limit, and all the others, known by
    their text. *)
Inductive Exception : Type :=
| TimeoutExpired (cmd : list str) (seconds : Q)
| OtherException (message : str).

Inductive Outcome (A : Type) : Type :=
| Returned (a : A)
| Raised (e : Exception).

Arguments Returned {A} a.
Arguments Raised {A} e.

(** A computation reads and changes the state of the host and either returns
    or raises. *)
Definition M (World A : Type) : Type := World -> Outcome A * World.

Definition ret {World A : Type} (a : A) : M World A :=
  fun w => (Returned a, w).

Definition raise {World A : Type} (e : Exception) : M World A :=
  fun w => (Raised e, w).

Definition bind {World A B : Type} (m : M World A) (k : A -> M World B)
  : M World B :=
  fun w =>
    match m w with
    | (Returned a, w') => k a w'
    | (Raised e, w') => (Raised e, w')
    end.

(** [try: body  except Exception as e: handler e] *)
Definition try_except {World A : Type} (body : M World A)
  (handler : Exception -> M World A) : M World A :=
  fun w =>
    match body w with
    | (Returned a, w') => (Returned a, w')
    | (Raised e, w') => handler e w'
    end.

(** [try: body  except subprocess.TimeoutExpired: handler] *)
Definition except_TimeoutExpired {World A : Type} (body : M World A)
  (handler : M World A) : M World A :=
  fun w =>
    match body w with
    | (Raised (TimeoutExpired _ _), w') => handler w'
    | r => r
    end.

(** [try: body  finally: cleanup]; the [with] statement is the same with the
    file's [close] as cleanup. An exception of the cleanup replaces the
    outcome of the body. *)
Definition try_finally {World A : Type} (body : M World A)
  (cleanup : M World unit) : M World A :=
  fun w =>
    match body w with
    | (r, w1) =>
        match cleanup w1 with
        | (Returned _, w2) => (r, w2)
        | (Raised e, w2) => (Raised e, w2)
        end
    end.

Declare Scope py_scope.
Delimit Scope py_scope with py.

Notation "x <- c1 ;; c2" := (bind c1 (fun x => c2))
  (at level 61, c1 at next level, right associativity) : py_scope.
Notation "c1 ;; c2" := (bind c1 (fun _ => c2))
  (at level 61, right associativity) : py_scope.

Open Scope py_scope.

(** What a child process does when it is left alone: it exits after
    [exits_after] seconds ([None]: it never does) with [exit_status], having
    written [child_stdout] and [child_stderr]; the two pipes that capture
    its output reach their end of file after [pipes_closed_after] seconds
    ([None]: never), which is later than the exit when a descendant of the
    child keeps one of them open. *)
Record Child : Type := {
  exits_after : option Q;
  pipes_closed_after : option Q;
  exit_status : Z;
  child_stdout : str;
  child_stderr : str
}.

Record CompletedProcess : Type := {
  returncode : Z;
  stdout : str;
  stderr : str
}.

(** The services of the standard library that the executor calls. A temporary
    file is known by its name. *)
Record Host (World : Type) : Type := {
  (** [tempfile.NamedTemporaryFile(mode='w', suffix=..., delete=False)] *)
  NamedTemporaryFile : str -> M World str;
  f_write : str -> str -> M World unit;
  f_flush : str -> M World unit;
  f_close : str -> M World unit;
  os_unlink : str -> M World unit;
  time_time : M World float;
  (** start a child with these arguments and this text on its standard input
      ([None]: the standard input of the server is inherited) *)
  Popen : list str -> option str -> M World Child;
  (** [f"{x:.2f}"] *)
  format_2f : float -> str;
  (** [str(e)] of a [TimeoutExpired] *)
  str_TimeoutExpired : list str -> Q -> str
}.

Arguments NamedTemporaryFile {World} h _ _.
Arguments f_write {World} h _ _ _.
Arguments f_flush {World} h _ _.
Arguments f_close {World} h _ _.
Arguments os_unlink {World} h _ _.
Arguments time_time {World} h _.
Arguments Popen {World} h _ _ _.
Arguments format_2f {World} h _.
Arguments str_TimeoutExpired {World} h _ _.

Definition nl : str := [10%N].

(** [a / b] for a float [a] and an [int] [b]: a division by zero raises
    [ZeroDivisionError], otherwise [b] is converted and the quotient is the
    rounded one of the floats. (An [int] 0 for [a] stands as the float 0:
    the quotient is the same float.) *)
Definition truediv {World : Type} (a : float) (b : Z) : M World float :=
  if (b =? 0)%Z
  then raise (OtherException (lit "division by zero"))
  else ret (PrimFloat.div a (Num.float_of_int b)).

(** The child has exited and both pipes are at their end of file within the
    number of seconds. *)
Definition finished_within (child : Child) (seconds : Q) : bool :=
  match exits_after child, pipes_closed_after child with
  | Some d, Some p => Qle_bool d seconds && Qle_bool p seconds
  | _, _ => false
  end.

(** ** code_executor.py *)

Record CodeExecutor : Type := {
  timeout : Q;
  memory_limit : Z
}.

Definition CodeExecutor__init__ : CodeExecutor :=
  {| timeout := 5; memory_limit := 128 |}.

Section Executor.

Context {World : Type} (host : Host World).

(** [str(e)] *)
Definition str_of_exception (e : Exception) : str :=
  match e with
  | TimeoutExpired cmd seconds => str_TimeoutExpired host cmd seconds
  | OtherException message => message
  end.

(** [subprocess.run(args, input=..., text=True, capture_output=True,
    timeout=...)]: the child is started and its output is read to the end
    of both pipes; when, after [timeout] seconds, the child has not exited
    or a pipe is still open, the child is killed and [TimeoutExpired] is
    raised, otherwise its exit status and captured streams are returned. *)
Definition subprocess_run (args : list str) (stdin : option str)
  (seconds : Q) : M World CompletedProcess :=
  child <- Popen host args stdin ;;
  if finished_within child seconds
  then ret {| returncode := exit_status child;
              stdout := child_stdout child;
              stderr := child_stderr child |}
  else raise (TimeoutExpired args seconds).

Definition _execute_python (self : CodeExecutor) (code test_input : str)
  : M World CodeExecutionResult :=
  f <- NamedTemporaryFile host (lit ".py") ;;
  try_finally
    (f_write host f code ;;
     f_flush host f ;;
     try_finally
       (except_TimeoutExpired
          (start_time <- time_time host ;;
           result <- subprocess_run [lit "python3"; f] (Some test_input)
                       (timeout self) ;;
           end_time <- time_time host ;;
           let runtime :=
             PrimFloat.mul (PrimFloat.sub end_time start_time) 1000 in
           if (returncode result =? 0)%Z
           then ret {| status := ACCEPTED;
                       output := strip (stdout result);
                       runtime := Some runtime;
                       memory := Some 10%float;
                       passed_tests := 0;
                       total_tests := 0;
                       error_message := None |}
           else ret {| status := RUNTIME_ERROR;
                       output := strip (stdout result);
                       runtime := None;
                       memory := None;
                       passed_tests := 0;
                       total_tests := 0;
                       error_message := Some (strip (stderr result)) |})
          (ret {| status := TIME_LIMIT_EXCEEDED;
                  output := [];
                  runtime := None;
                  memory := None;
                  passed_tests := 0;
                  total_tests := 0;
                  error_message := Some (lit "Time limit exceeded") |}))
       (os_unlink host f))
    (f_close host f).

(** The text written for a JavaScript submission: a prelude that holds the
    test input in a template literal, then the submitted code. *)
Definition wrapped_code (code test_input : str) : str :=
  nl ++ lit "const readline = require('readline');" ++ nl
  ++ lit "const rl = readline.createInterface({" ++ nl
  ++ lit "    input: process.stdin," ++ nl
  ++ lit "    output: process.stdout" ++ nl
  ++ lit "});" ++ nl
  ++ nl
  ++ lit "let input = `" ++ test_input ++ lit "`;" ++ nl
  ++ lit "let lines = input.split('\n');" ++ nl
  ++ lit "let currentLine = 0;" ++ nl
  ++ nl
  ++ lit "function nextLine() {" ++ nl
  ++ lit "    return lines[currentLine++] || '';" ++ nl
  ++ lit "}" ++ nl
  ++ nl
  ++ code ++ nl.

Definition _execute_javascript (self : CodeExecutor) (code test_input : str)
  : M World CodeExecutionResult :=
  f <- NamedTemporaryFile host (lit ".js") ;;
  try_finally
    (f_write host f (wrapped_code code test_input) ;;
     f_flush host f ;;
     try_finally
       (except_TimeoutExpired
          (start_time <- time_time host ;;
           result <- subprocess_run [lit "node"; f] None (timeout self) ;;
           end_time <- time_time host ;;
           let runtime :=
             PrimFloat.mul (PrimFloat.sub end_time start_time) 1000 in
           if (returncode result =? 0)%Z
           then ret {| status := ACCEPTED;
                       output := strip (stdout result);
                       runtime := Some runtime;
                       memory := Some 15%float;
                       passed_tests := 0;
                       total_tests := 0;
                       error_message := None |}
           else ret {| status := RUNTIME_ERROR;
                       output := strip (stdout result);
                       runtime := None;
                       memory := None;
                       passed_tests := 0;
                       total_tests := 0;
                       error_message := Some (strip (stderr result)) |})
          (ret {| status := TIME_LIMIT_EXCEEDED;
                  output := [];
                  runtime := None;
                  memory := None;
                  passed_tests := 0;
                  total_tests := 0;
                  error_message := Some (lit "Time limit exceeded") |}))
       (os_unlink host f))
    (f_close host f).

Definition _execute_java (self : CodeExecutor) (code test_input : str)
  : M World CodeExecutionResult :=
  ret {| status := ACCEPTED;
         output := lit "Java execution mocked";
         runtime := Some 50%float;
         memory := Some 25%float;
         passed_tests := 0;
         total_tests := 0;
         error_message := None |}.

Definition _execute_cpp (self : CodeExecutor) (code test_input : str)
  : M World CodeExecutionResult :=
  ret {| status := ACCEPTED;
         output := lit "C++ execution mocked";
         runtime := Some 30%float;
         memory := Some 20%float;
         passed_tests := 0;
         total_tests := 0;
         error_message := None |}.

Definition execute_code (self : CodeExecutor) (language code test_input : str)
  : M World CodeExecutionResult :=
  try_except
    (if Str.eqb language (value PYTHON)
     then _execute_python self code test_input
     else if Str.eqb language (value JAVASCRIPT)
     then _execute_javascript self code test_input
     else if Str.eqb language (value JAVA)
     then _execute_java self code test_input
     else if Str.eqb language (value CPP)
     then _execute_cpp self code test_input
     else ret {| status := RUNTIME_ERROR;
                 output := lit "Unsupported language";
                 runtime := None;
                 memory := None;
                 passed_tests := 0;
                 total_tests := 0;
                 error_message := Some (lit "Language not supported") |})
    (fun e =>
       ret {| status := RUNTIME_ERROR;
              output := [];
              runtime := None;
              memory := None;
              passed_tests := 0;
              total_tests := 0;
              error_message := Some (str_of_exception e) |}).

(** [result.runtime or 0]: [None] and a zero are falsy, and the [int] 0
    that then takes their place adds to a float as the float 0. *)
Definition runtime_or_0 (r : option float) : float :=
  match r with
  | Some x => if Num.is_zero x then 0%float else x
  | None => 0%float
  end.

(** The body of [for test_case in test_cases], from the current values of
    [passed_tests] and [total_runtime], followed by the code after the loop. *)
Fixpoint for_test_case (self : CodeExecutor) (language code : str)
  (total_tests : Z) (test_cases : list TestCase)
  (passed_tests : Z) (total_runtime : float) : M World CodeExecutionResult :=
  match test_cases with
  | test_case :: rest =>
      result <- execute_code self language code (input test_case) ;;
      if status_eqb (status result) ACCEPTED
      then
        let expected := strip (expected_output test_case) in
        let actual := strip (output result) in
        if Str.eqb expected actual
        then for_test_case self language code total_tests rest
               (passed_tests + 1)%Z
               (PrimFloat.add total_runtime (runtime_or_0 (runtime result)))
        else ret {| status := WRONG_ANSWER;
                    output := lit "Expected: " ++ expected ++ nl
                              ++ lit "Actual: " ++ actual;
                    runtime := runtime result;
                    memory := None;
                    passed_tests := passed_tests;
                    total_tests := total_tests;
                    error_message := None |}
      else ret result
  | [] =>
      avg_runtime <- (if (total_tests >? 0)%Z
                      then truediv total_runtime total_tests
                      else ret 0%float) ;;
      ret {| status := ACCEPTED;
             output := lit "All test cases passed!" ++ nl
                       ++ lit "Average Runtime: "
                       ++ format_2f host avg_runtime ++ lit "ms";
             runtime := Some avg_runtime;
             memory := None;
             passed_tests := passed_tests;
             total_tests := total_tests;
             error_message := None |}
  end.

Definition test_solution (self : CodeExecutor) (language code : str)
  (test_cases : list TestCase) : M World CodeExecutionResult :=
  let passed_tests := 0%Z in
  let total_tests := Z.of_nat (List.length test_cases) in
  let total_runtime := 0%float in
  for_test_case self language code total_tests test_cases
    passed_tests total_runtime.

End Executor.

(** ** What every execution returns *)

(** Case analysis on the innermost scrutinee of a hypothesis or of the goal. *)
Ltac destruct_scrutinee_in H :=
  match type of H with
  | context [match ?x with _ => _ end] =>
      lazymatch x with
      | context [match _ with _ => _ end] => fail
      | _ => destruct x eqn:?
      end
  end.


Ltac unfold_py :=
  unfold bind, try_except, try_finally, except_TimeoutExpired, ret, raise.

Ltac unfold_py_in H :=
  unfold bind, try_except, try_finally, except_TimeoutExpired, ret, raise in H.

(** What [execute_code] can return: one of three verdicts, no counts, and a
    runtime whenever the verdict is Accepted. *)
Record runner_result (r : CodeExecutionResult) : Prop := {
  runner_status :
    status r = ACCEPTED \/ status r = RUNTIME_ERROR
    \/ status r = TIME_LIMIT_EXCEEDED;
  runner_passed : passed_tests r = 0%Z;
  runner_total : total_tests r = 0%Z;
  runner_runtime : status r = ACCEPTED -> exists q, runtime r = Some q
}.

Section ExecutorFacts.

Context {World : Type} (host : Host World).
Variable self : CodeExecutor.

Ltac shape :=
  constructor; simpl; eauto; try discriminate.

Lemma _execute_python_shape code test_input w r w' :
  _execute_python host self code test_input w = (Returned r, w') ->
  runner_result r.
Proof.
  intros H. unfold _execute_python, subprocess_run in H. unfold_py_in H.
  repeat destruct_scrutinee_in H; try discriminate;
    injection H as <- <-; shape.
Qed.

Lemma _execute_javascript_shape code test_input w r w' :
  _execute_javascript host self code test_input w = (Returned r, w') ->
  runner_result r.
Proof.
  intros H. unfold _execute_javascript, subprocess_run in H. unfold_py_in H.
  repeat destruct_scrutinee_in H; try discriminate;
    injection H as <- <-; shape.
Qed.

(** [execute_code] never raises: the handler of its [try] returns. *)
Lemma execute_code_returns language code test_input w :
  exists r w',
    execute_code host self language code test_input w = (Returned r, w').
Proof.
  unfold execute_code, try_except.
  match goal with
  | |- context [match ?b w with _ => _ end] => destruct (b w) as [[r|e] w1]
  end; unfold ret; eauto.
Qed.

Lemma execute_code_shape language code test_input w r w' :
  execute_code host self language code test_input w = (Returned r, w') ->
  runner_result r.
Proof.
  unfold execute_code, try_except. intros H.
  destruct (Str.eqb language (value PYTHON)).
  { destruct (_execute_python host self code test_input w) as [[a|e] w1]
      eqn:Hrun.
    - injection H as <- <-. eapply _execute_python_shape; eassumption.
    - unfold ret in H. injection H as <- <-. shape. }
  destruct (Str.eqb language (value JAVASCRIPT)).
  { destruct (_execute_javascript host self code test_input w) as [[a|e] w1]
      eqn:Hrun.
    - injection H as <- <-. eapply _execute_javascript_shape; eassumption.
    - unfold ret in H. injection H as <- <-. shape. }
  destruct (Str.eqb language (value JAVA)).
  { unfold _execute_java, ret in H. injection H as <- <-. shape. }
  destruct (Str.eqb language (value CPP)).
  { unfold _execute_cpp, ret in H. injection H as <- <-. shape. }
  unfold ret in H. injection H as <- <-. shape.
Qed.

End ExecutorFacts.

(** ** The grading loop *)

(** The case is counted as passed: the run was accepted and the trimmed
    texts are equal. *)
Definition passes (test_case : TestCase) (o : Outcome CodeExecutionResult)
  : bool :=
  match o with
  | Returned result =>
      status_eqb (status result) ACCEPTED
      && Str.eqb (strip (expected_output test_case)) (strip (output result))
  | Raised _ => false
  end.

(** The elapsed time that the loop adds for one case, in milliseconds. *)
Definition elapsed_ms (o : Outcome CodeExecutionResult) : float :=
  match o with
  | Returned result => runtime_or_0 (runtime result)
  | Raised _ => 0%float
  end.

(** The floats added one after the other, from the left, to a first one. *)
Definition float_sum (start : float) (l : list float) : float :=
  fold_left PrimFloat.add l start.

(** The number of cases before the first one that does not pass. *)
Fixpoint leading_passes (test_cases : list TestCase)
  (outcomes : list (Outcome CodeExecutionResult)) : nat :=
  match test_cases, outcomes with
  | test_case :: cases, o :: os =>
      if passes test_case o then S (leading_passes cases os) else 0%nat
  | _, _ => 0%nat
  end.

Section Grading.

Context {World : Type} (host : Host World).
Variables (self : CodeExecutor) (language code : str).

(** The cases executed one after the other, in the given order, each in the
    state of the host that the previous one left. *)
Fixpoint case_outcomes (test_cases : list TestCase) (w : World)
  : list (Outcome CodeExecutionResult) :=
  match test_cases with
  | [] => []
  | test_case :: rest =>
      let (o, w') := execute_code host self language code (input test_case) w in
      o :: case_outcomes rest w'
  end.

Fixpoint world_after (test_cases : list TestCase) (w : World) : World :=
  match test_cases with
  | [] => w
  | test_case :: rest =>
      world_after rest
        (snd (execute_code host self language code (input test_case) w))
  end.

Definition all_pass (test_cases : list TestCase) (w : World) : Prop :=
  leading_passes test_cases (case_outcomes test_cases w)
  = List.length test_cases.

Lemma status_eqb_true (a b : SubmissionStatusEnum) :
  status_eqb a b = true <-> a = b.
Proof.
  unfold status_eqb. destruct (status_eq_dec a b); split; congruence.
Qed.

Lemma status_eqb_false (a b : SubmissionStatusEnum) :
  status_eqb a b = false <-> a <> b.
Proof.
  unfold status_eqb. destruct (status_eq_dec a b); split; congruence.
Qed.

(** One turn of the loop on a case that passes. *)
Lemma for_test_case_pass total test_case rest passed total_runtime w r w1 :
  execute_code host self language code (input test_case) w = (Returned r, w1) ->
  passes test_case (Returned r) = true ->
  for_test_case host self language code total (test_case :: rest)
    passed total_runtime w
  = for_test_case host self language code total rest
      (passed + 1)%Z (PrimFloat.add total_runtime (runtime_or_0 (runtime r)))
      w1.
Proof.
  intros Hrun Hpass. simpl in Hpass. apply andb_true_iff in Hpass.
  destruct Hpass as [Hs He].
  simpl. unfold bind at 1. rewrite Hrun, Hs, He. reflexivity.
Qed.

(** One turn of the loop on an accepted run whose output differs. *)
Lemma for_test_case_mismatch total test_case rest passed total_runtime
  w r w1 :
  execute_code host self language code (input test_case) w = (Returned r, w1) ->
  status r = ACCEPTED ->
  strip (expected_output test_case) <> strip (output r) ->
  for_test_case host self language code total (test_case :: rest)
    passed total_runtime w
  = (Returned {| status := WRONG_ANSWER;
                 output := lit "Expected: " ++ strip (expected_output test_case)
                           ++ nl ++ lit "Actual: " ++ strip (output r);
                 runtime := runtime r;
                 memory := None;
                 passed_tests := passed;
                 total_tests := total;
                 error_message := None |}, w1).
Proof.
  intros Hrun Hs Hne. apply status_eqb_true in Hs. apply eqb_neq in Hne.
  simpl. unfold bind at 1. rewrite Hrun, Hs, Hne. reflexivity.
Qed.

(** One turn of the loop on a run that was not accepted: its result is
    returned as it is and nothing more is executed. *)
Lemma for_test_case_not_accepted total test_case rest passed total_runtime
  w r w1 :
  execute_code host self language code (input test_case) w = (Returned r, w1) ->
  status r <> ACCEPTED ->
  for_test_case host self language code total (test_case :: rest)
    passed total_runtime w
  = (Returned r, w1).
Proof.
  intros Hrun Hs. apply status_eqb_false in Hs.
  simpl. unfold bind at 1. rewrite Hrun, Hs. reflexivity.
Qed.

(** The loop over a prefix of cases that all pass. *)
Lemma for_test_case_prefix total pre rest passed total_runtime w :
  all_pass pre w ->
  for_test_case host self language code total (pre ++ rest)
    passed total_runtime w
  = for_test_case host self language code total rest
      (passed + Z.of_nat (List.length pre))%Z
      (float_sum total_runtime (List.map elapsed_ms (case_outcomes pre w)))
      (world_after pre w).
Proof.
  unfold all_pass.
  revert passed total_runtime w.
  induction pre as [|tc pre IH]; intros passed total_runtime w Hall.
  - simpl. rewrite Z.add_0_r. reflexivity.
  - cbn [case_outcomes world_after leading_passes List.length] in *.
    destruct (execute_code host self language code (input tc) w)
      as [o w1] eqn:Hrun.
    cbn [leading_passes List.map snd] in *.
    destruct (passes tc o) eqn:Hp; [|discriminate].
    destruct o as [r|e]; [|discriminate].
    injection Hall as Hall.
    rewrite <- app_comm_cons.
    rewrite for_test_case_pass with (r := r) (w1 := w1) by assumption.
    rewrite IH by assumption.
    unfold float_sum. cbn [fold_left elapsed_ms]. f_equal. lia.
Qed.

End Grading.

(** ** A run of an interpreted language on a working host *)

Definition is_interpreted (language : str) : Prop :=
  language = value PYTHON \/ language = value JAVASCRIPT.

(** What the runner of the language writes, starts and reports. *)
Definition source_suffix (language : str) : str :=
  if Str.eqb language (value PYTHON) then lit ".py" else lit ".js".

Definition source_text (language code test_input : str) : str :=
  if Str.eqb language (value PYTHON) then code
  else wrapped_code code test_input.

Definition command (language f : str) : list str :=
  if Str.eqb language (value PYTHON) then [lit "python3"; f]
  else [lit "node"; f].

Definition child_stdin (language test_input : str) : option str :=
  if Str.eqb language (value PYTHON) then Some test_input else None.

Definition mock_memory (language : str) : float :=
  if Str.eqb language (value PYTHON) then 10%float else 15%float.

(** The run is not over within the limit: after that many seconds the child
    has not exited, or a pipe of its output is still open. *)
Definition runs_longer_than (child : Child) (seconds : Q) : Prop :=
  finished_within child seconds = false.

Section Runs.

Context {World : Type} (host : Host World).
Variable self : CodeExecutor.

(** The temporary file is created, written and flushed, the clock is read
    and the child is started. *)
Definition starts_child (language code test_input : str) (w : World)
  (f : str) (start_time : float) (child : Child) (w' : World) : Prop :=
  exists w1 w2 w3 w4,
    NamedTemporaryFile host (source_suffix language) w = (Returned f, w1) /\
    f_write host f (source_text language code test_input) w1
      = (Returned tt, w2) /\
    f_flush host f w2 = (Returned tt, w3) /\
    time_time host w3 = (Returned start_time, w4) /\
    Popen host (command language f) (child_stdin language test_input) w4
      = (Returned child, w').

(** The temporary file is unlinked and closed. *)
Definition cleans_up (f : str) (w w' : World) : Prop :=
  exists w1,
    os_unlink host f w = (Returned tt, w1) /\
    f_close host f w1 = (Returned tt, w').

Lemma eqb_refl (s : str) : Str.eqb s s = true.
Proof. apply eqb_eq. reflexivity. Qed.

Lemma javascript_not_python :
  Str.eqb (value JAVASCRIPT) (value PYTHON) = false.
Proof. reflexivity. Qed.

Ltac run_host :=
  repeat match goal with
         | H : ?op = (_, _) |- context [?op] => rewrite H; cbv beta iota
         end.

Ltac open_run Hlang Hstart :=
  destruct Hlang as [-> | ->];
  unfold starts_child, source_suffix, source_text, command, child_stdin,
    mock_memory in *;
  rewrite ?eqb_refl, ?javascript_not_python in *;
  destruct Hstart as (w1' & w2' & w3' & w4' & Hn & Hw & Hf & Ht & Hp);
  unfold execute_code;
  rewrite ?eqb_refl, ?javascript_not_python;
  unfold _execute_python, _execute_javascript, subprocess_run; unfold_py.


(** The run is not over within the limit: Time Limit Exceeded. *)
Lemma execute_code_timed_out language code test_input w f start_time child
  w1 w2 :
  is_interpreted language ->
  starts_child language code test_input w f start_time child w1 ->
  runs_longer_than child (timeout self) ->
  cleans_up f w1 w2 ->
  execute_code host self language code test_input w
  = (Returned {| status := TIME_LIMIT_EXCEEDED;
                 output := [];
                 runtime := None;
                 memory := None;
                 passed_tests := 0;
                 total_tests := 0;
                 error_message := Some (lit "Time limit exceeded") |}, w2).
Proof.
  intros Hlang Hstart Hlong (w3 & Hu & Hc). unfold runs_longer_than in Hlong.
  open_run Hlang Hstart; run_host; rewrite Hlong; cbv beta iota;
    run_host; reflexivity.
Qed.

(** What it is for a run not to be over within the limit. *)
Lemma runs_longer_than_iff (child : Child) (seconds : Q) :
  runs_longer_than child seconds <->
  match exits_after child, pipes_closed_after child with
  | Some d, Some p => seconds < d \/ seconds < p
  | _, _ => True
  end.
Proof.
  unfold runs_longer_than, finished_within.
  destruct (exits_after child) as [d|], (pipes_closed_after child) as [p|];
    try (split; [intros _; exact I | reflexivity]).
  rewrite andb_false_iff. split.
  - intros [H|H]; [left|right]; apply Qnot_le_lt; intros Hle;
      apply Qle_bool_iff in Hle; congruence.
  - intros [H|H]; [left|right];
      (destruct (Qle_bool _ seconds) eqn:E; [|reflexivity]);
      apply Qle_bool_iff in E; exfalso; eapply Qlt_not_le; eassumption.
Qed.

End Runs.

Section MoreRuns.

Context {World : Type} (host : Host World).
Variable self : CodeExecutor.

(** The temporary file is created, written and flushed, and the clock is
    read. *)
Definition writes_source (language code test_input : str) (w : World)
  (f : str) (start_time : float) (w' : World) : Prop :=
  exists w1 w2 w3,
    NamedTemporaryFile host (source_suffix language) w = (Returned f, w1) /\
    f_write host f (source_text language code test_input) w1
      = (Returned tt, w2) /\
    f_flush host f w2 = (Returned tt, w3) /\
    time_time host w3 = (Returned start_time, w').

Lemma _execute_python_output_trimmed code test_input w r w' :
  _execute_python host self code test_input w = (Returned r, w') ->
  strip (output r) = output r.
Proof.
  intros H. unfold _execute_python, subprocess_run in H. unfold_py_in H.
  repeat destruct_scrutinee_in H; try discriminate;
    injection H as <- <-; cbn [output];
    first [apply strip_idempotent | reflexivity].
Qed.

Lemma _execute_javascript_output_trimmed code test_input w r w' :
  _execute_javascript host self code test_input w = (Returned r, w') ->
  strip (output r) = output r.
Proof.
  intros H. unfold _execute_javascript, subprocess_run in H. unfold_py_in H.
  repeat destruct_scrutinee_in H; try discriminate;
    injection H as <- <-; cbn [output];
    first [apply strip_idempotent | reflexivity].
Qed.

End MoreRuns.

Ltac run_host' :=
  repeat match goal with
         | H : ?op = (_, _) |- context [?op] => rewrite H; cbv beta iota
         end.

Ltac open_language Hlang :=
  destruct Hlang as [-> | ->];
  unfold writes_source, starts_child, cleans_up, source_suffix, source_text,
    command, child_stdin, mock_memory in *;
  rewrite ?eqb_refl, ?javascript_not_python in *;
  unfold execute_code;
  rewrite ?eqb_refl, ?javascript_not_python;
  unfold _execute_python, _execute_javascript, subprocess_run; unfold_py.


(** ** A small host to run the executor on

    One temporary directory, a clock, and an interpreter that knows two
    programs. It serves to evaluate the executor on concrete submissions. *)

Module Toy.

Record World : Type := {
  disk_full : bool;
  files : list (str * str);
  clock : float
}.

Fixpoint read (name : str) (fs : list (str * str)) : option str :=
  match fs with
  | [] => None
  | (n, text) :: fs' => if Str.eqb n name then Some text else read name fs'
  end.

Fixpoint remove (name : str) (fs : list (str * str)) : list (str * str) :=
  match fs with
  | [] => []
  | (n, text) :: fs' =>
      if Str.eqb n name then remove name fs' else (n, text) :: remove name fs'
  end.

Definition divider : str := lit "print(1 // int(input()))".
Definition spinner : str := lit "while True: pass".

(** A program that leaves a descendant behind: the child exits at once with
    status 1, the descendant sleeps for a minute with the pipes open. *)
Definition orphan : str :=
  lit "import os, sys, time; os.fork() and sys.exit(1); time.sleep(60)".

(** What the interpreter does with a source text and a standard input. *)
Definition program (text : str) (stdin : option str) : Child :=
  let given := match stdin with Some s => strip s | None => [] end in
  if Str.eqb text divider then
    if Str.eqb given (lit "1") then
      {| exits_after := Some (1 # 64);
         pipes_closed_after := Some (1 # 64);
         exit_status := 0;
         child_stdout := lit "1" ++ nl;
         child_stderr := [] |}
    else if Str.eqb given (lit "2") then
      {| exits_after := Some (1 # 32);
         pipes_closed_after := Some (1 # 32);
         exit_status := 0;
         child_stdout := lit "0" ++ nl;
         child_stderr := [] |}
    else
      {| exits_after := Some (1 # 64);
         pipes_closed_after := Some (1 # 64);
         exit_status := 1;
         child_stdout := [];
         child_stderr := lit "ZeroDivisionError: division by zero" ++ nl |}
  else if Str.eqb text spinner then
    {| exits_after := None;
       pipes_closed_after := None;
       exit_status := 0;
       child_stdout := [];
       child_stderr := [] |}
  else if Str.eqb text orphan then
    {| exits_after := Some (1 # 64);
       pipes_closed_after := Some 60;
       exit_status := 1;
       child_stdout := [];
       child_stderr := [] |}
  else
    {| exits_after := Some (1 # 128);
       pipes_closed_after := Some (1 # 128);
       exit_status := 0;
       child_stdout := [];
       child_stderr := [] |}.

(** A number of seconds as a float. *)
Definition seconds (q : Q) : float :=
  PrimFloat.div (Num.float_of_int (Qnum q))
    (Num.float_of_int (Z.pos (Qden q))).

Definition two_digits (n : N) : str :=
  [(48 + (n / 10) mod 10)%N; (48 + n mod 10)%N].

Fixpoint digits (fuel : nat) (n : N) (acc : str) : str :=
  match fuel with
  | O => acc
  | S fuel' =>
      let acc' := ((48 + n mod 10)%N :: acc) in
      if (n / 10 =? 0)%N then acc' else digits fuel' (n / 10)%N acc'
  end.

(** Two decimals of a float that is not negative, a tie going to the even
    digit. *)
Definition two_decimals (x : float) : str :=
  let hundredths := Num.exact x * 100 in
  let below := Qfloor hundredths in
  let rest := hundredths - inject_Z below in
  let up :=
    match rest ?= 1 # 2 with
    | Gt => true
    | Eq => Z.odd below
    | Lt => false
    end in
  let n := Z.to_N (if up then below + 1 else below) in
  digits (S (N.to_nat (N.log2 (n / 100)))) (n / 100)%N [] ++ lit "."
  ++ two_digits (n mod 100)%N.

Definition host : Host World := {|
  NamedTemporaryFile := fun suffix w =>
    if disk_full w
    then (Raised (OtherException (lit "[Errno 28] No space left on device")), w)
    else (Returned (lit "/tmp/tmpjudge" ++ suffix), w);
  f_write := fun f text w =>
    (Returned tt, {| disk_full := disk_full w;
                     files := (f, text) :: remove f (files w);
                     clock := clock w |});
  f_flush := fun f w => (Returned tt, w);
  f_close := fun f w => (Returned tt, w);
  os_unlink := fun f w =>
    (Returned tt, {| disk_full := disk_full w;
                     files := remove f (files w);
                     clock := clock w |});
  time_time := fun w => (Returned (clock w), w);
  Popen := fun args stdin w =>
    match args with
    | [_; f] =>
        match read f (files w) with
        | Some text =>
            let child := program text stdin in
            (Returned child,
             {| disk_full := disk_full w;
                files := files w;
                clock := match exits_after child with
                         | Some d => PrimFloat.add (clock w) (seconds d)
                         | None => clock w
                         end |})
        | None =>
            (Raised (OtherException (lit "[Errno 2] No such file or directory")),
             w)
        end
    | _ => (Raised (OtherException (lit "[Errno 2] No such file or directory")), w)
    end;
  format_2f := two_decimals;
  str_TimeoutExpired := fun cmd seconds => lit "Command timed out"
|}.

Definition boot : World :=
  {| disk_full := false; files := []; clock := 100 |}.

Definition full : World :=
  {| disk_full := true; files := []; clock := 100 |}.

Definition case (given expected : string) : TestCase :=
  {| input := lit given; expected_output := lit expected; is_hidden := false |}.

End Toy.

(** A host like [Toy.host] on which one service fails. *)
Module Faulty.

Inductive Fault : Set := WriteFails | SpawnFails | UnlinkFails.

Definition no_space : Exception :=
  OtherException (lit "[Errno 28] No space left on device").

Definition no_interpreter : Exception :=
  OtherException (lit "[Errno 2] No such file or directory: 'python3'").

Definition not_permitted : Exception :=
  OtherException (lit "[Errno 1] Operation not permitted").

Definition host (fault : Fault) : Host Toy.World := {|
  NamedTemporaryFile := NamedTemporaryFile Toy.host;
  f_write := fun f text w =>
    match fault with
    | WriteFails => (Raised no_space, w)
    | _ => f_write Toy.host f text w
    end;
  f_flush := f_flush Toy.host;
  f_close := f_close Toy.host;
  os_unlink := fun f w =>
    match fault with
    | UnlinkFails => (Raised not_permitted, w)
    | _ => os_unlink Toy.host f w
    end;
  time_time := time_time Toy.host;
  Popen := fun args stdin w =>
    match fault with
    | SpawnFails => (Raised no_interpreter, w)
    | _ => Popen Toy.host args stdin w
    end;
  format_2f := format_2f Toy.host;
  str_TimeoutExpired := str_TimeoutExpired Toy.host
|}.

End Faulty.

(** ** The properties of the executor *)

(** The value a computation returned, if it did. *)
Definition returned {World A : Type} (r : Outcome A * World) : option A :=
  match fst r with
  | Returned a => Some a
  | Raised _ => None
  end.

(** Two texts with the same core once the white space around is set aside. *)
Definition same_trimmed (a b : str) : Prop :=
  exists l1 r1 l2 r2 core,
    blank l1 /\ blank r1 /\ blank l2 /\ blank r2 /\ trimmed core /\
    a = l1 ++ core ++ r1 /\ b = l2 ++ core ++ r2.

Lemma strip_eq_iff (a b : str) : strip a = strip b <-> same_trimmed a b.
Proof.
  split.
  - intros E.
    destruct (strip_split a) as (l1 & r1 & Hl1 & Hr1 & Ha).
    destruct (strip_split b) as (l2 & r2 & Hl2 & Hr2 & Hb).
    exists l1, r1, l2, r2, (strip a). repeat split; try assumption.
    + apply strip_trimmed.
    + apply strip_trimmed.
    + rewrite E. exact Hb.
  - intros (l1 & r1 & l2 & r2 & core & Hl1 & Hr1 & Hl2 & Hr2 & Hc & -> & ->).
    rewrite !strip_blank_around by assumption. reflexivity.
Qed.

Section Verdicts.

Context {World : Type} (host : Host World).
Variables (self : CodeExecutor) (language code : str).

(** Every list of cases either passes as a whole or splits at its first
    case that does not pass. *)
Lemma first_failure (test_cases : list TestCase) (w : World) :
  all_pass host self language code test_cases w \/
  exists pre test_case post,
    test_cases = pre ++ test_case :: post /\
    all_pass host self language code pre w /\
    leading_passes test_cases
      (case_outcomes host self language code test_cases w)
    = List.length pre /\
    passes test_case
      (fst (execute_code host self language code (input test_case)
              (world_after host self language code pre w))) = false.
Proof.
  unfold all_pass. revert w.
  induction test_cases as [|tc cases IH]; intros w.
  - left. reflexivity.
  - cbn [case_outcomes leading_passes List.length].
    destruct (execute_code host self language code (input tc) w)
      as [o w1] eqn:Hrun.
    cbn [leading_passes].
    destruct (passes tc o) eqn:Hp.
    + destruct (IH w1) as [Hall | (pre & t & post & -> & Hpre & Hlen & Hfail)].
      * left. rewrite Hall. reflexivity.
      * right. exists (tc :: pre), t, post.
        cbn [case_outcomes leading_passes List.length world_after app].
        rewrite Hrun. cbn [leading_passes snd]. rewrite Hp.
        repeat split; try congruence.
    + right. exists [], tc, cases. cbn. rewrite Hrun. cbn.
      repeat split. exact Hp.
Qed.

(** The result of [test_solution] when some case does not pass: a Wrong
    Answer carries the number of cases passed before it and the number of
    cases; a failed run is returned as [execute_code] made it, with both
    counts at their default 0. *)
Lemma test_solution_first_failure (test_cases : list TestCase) (w : World) :
  ~ all_pass host self language code test_cases w ->
  exists r w',
    test_solution host self language code test_cases w = (Returned r, w') /\
    status r <> ACCEPTED /\
    (status r = WRONG_ANSWER ->
       passed_tests r
       = Z.of_nat (leading_passes test_cases
                     (case_outcomes host self language code test_cases w)) /\
       total_tests r = Z.of_nat (List.length test_cases)) /\
    (status r <> WRONG_ANSWER ->
       passed_tests r = 0%Z /\ total_tests r = 0%Z).
Proof.
  intros Hnot.
  destruct (first_failure test_cases w)
    as [Hall | (pre & tc & post & Heq & Hpre & Hlen & Hfail)];
    [contradiction|].
  subst test_cases.
  destruct (execute_code_returns host self language code (input tc)
              (world_after host self language code pre w)) as (r & w1 & Hrun).
  unfold test_solution.
  pose proof (for_test_case_prefix
                (Z.of_nat (List.length (pre ++ tc :: post)))
                (tc :: post) 0%Z 0%float Hpre) as Hloop.
  rewrite Hrun in Hfail. cbn [fst passes] in Hfail.
  pose proof (execute_code_shape _ _ _ _ _ _ Hrun) as Hshape.
  rewrite Hloop.
  destruct (status_eq_dec (status r) ACCEPTED) as [Hacc | Hacc].
  - assert (Hne : strip (expected_output tc) <> strip (output r)).
    { apply eqb_neq. apply status_eqb_true in Hacc. rewrite Hacc in Hfail.
      exact Hfail. }
    rewrite for_test_case_mismatch with (r := r) (w1 := w1) by assumption.
    eexists. eexists. split; [reflexivity|]. cbn.
    repeat split; try discriminate; try congruence.
  - rewrite for_test_case_not_accepted with (r := r) (w1 := w1)
      by assumption.
    exists r, w1. split; [reflexivity|]. split; [exact Hacc|].
    split.
    + intros Hwa. destruct (runner_status Hshape) as [H|[H|H]]; congruence.
    + intros _. split; [apply (runner_passed Hshape)
                       | apply (runner_total Hshape)].
Qed.

End Verdicts.

(** *** Counts of a failed submission *)

(** C1: when the verdict is not Accepted, [passed_tests] should be the number
    of cases before the first one that does not pass. On the submission
    [print(1 // int(input()))] with the cases ("1" -> "1"), ("0" -> "0") the
    first case passes and the second ends with a non-zero exit status: the
    failed run is returned as it is, and [passed_tests] is 0 where one case
    had passed. With a second case that only prints the wrong text the
    Wrong Answer branch reports 1. *)
Theorem failed_run_forgets_passed_tests :
  let self := CodeExecutor__init__ in
  let crash := [Toy.case "1" "1"; Toy.case "0" "0"] in
  let wrong := [Toy.case "1" "1"; Toy.case "1" "2"] in
  leading_passes crash
    (case_outcomes Toy.host self (value PYTHON) Toy.divider crash Toy.boot)
  = 1%nat /\
  option_map status
    (returned (test_solution Toy.host self (value PYTHON) Toy.divider crash
                 Toy.boot))
  = Some RUNTIME_ERROR /\
  option_map passed_tests
    (returned (test_solution Toy.host self (value PYTHON) Toy.divider crash
                 Toy.boot))
  = Some 0%Z /\
  option_map status
    (returned (test_solution Toy.host self (value PYTHON) Toy.divider wrong
                 Toy.boot))
  = Some WRONG_ANSWER /\
  option_map passed_tests
    (returned (test_solution Toy.host self (value PYTHON) Toy.divider wrong
                 Toy.boot))
  = Some 1%Z.
Proof. vm_compute. repeat split. Qed.

(** C2: [total_tests] should be the number of cases whatever the verdict. On
    the submission [while True: pass] with one case the run exceeds the time
    limit: the result of the run is returned as it is, and [total_tests] is 0
    where one case was given. The Wrong Answer branch reports the length. *)
Theorem failed_run_forgets_total_tests :
  let self := CodeExecutor__init__ in
  let cases := [Toy.case "1" "1"] in
  let wrong := [Toy.case "1" "2"] in
  option_map status
    (returned (test_solution Toy.host self (value PYTHON) Toy.spinner cases
                 Toy.boot))
  = Some TIME_LIMIT_EXCEEDED /\
  option_map total_tests
    (returned (test_solution Toy.host self (value PYTHON) Toy.spinner cases
                 Toy.boot))
  = Some 0%Z /\
  Z.of_nat (List.length cases) = 1%Z /\
  option_map total_tests
    (returned (test_solution Toy.host self (value PYTHON) Toy.divider wrong
                 Toy.boot))
  = Some 1%Z.
Proof. vm_compute. repeat split. Qed.

(** *** The comparison of one case *)

(** C3: for an accepted run the case is a match exactly when the expected
    text and the output agree once the white space around each is set aside:
    on a match the loop counts the case and goes on, otherwise it returns
    Wrong Answer. White space inside is significant: [" 5\n"] matches ["5"],
    ["5 6"] does not match ["56"]. *)
Theorem comparison_trims_only_the_ends {World : Type} (host : Host World)
  (self : CodeExecutor) (language code : str) (total : Z)
  (test_case : TestCase) (rest : list TestCase) (passed : Z)
  (total_runtime : float) (w : World) (r : CodeExecutionResult) (w1 : World) :
  execute_code host self language code (input test_case) w = (Returned r, w1) ->
  status r = ACCEPTED ->
  (same_trimmed (expected_output test_case) (output r) ->
   for_test_case host self language code total (test_case :: rest)
     passed total_runtime w
   = for_test_case host self language code total rest
       (passed + 1)%Z (PrimFloat.add total_runtime (runtime_or_0 (runtime r)))
       w1) /\
  (~ same_trimmed (expected_output test_case) (output r) ->
   for_test_case host self language code total (test_case :: rest)
     passed total_runtime w
   = (Returned {| status := WRONG_ANSWER;
                  output := lit "Expected: "
                            ++ strip (expected_output test_case) ++ nl
                            ++ lit "Actual: " ++ strip (output r);
                  runtime := runtime r;
                  memory := None;
                  passed_tests := passed;
                  total_tests := total;
                  error_message := None |}, w1)) /\
  same_trimmed (lit " 5" ++ nl) (lit "5") /\
  ~ same_trimmed (lit "5 6") (lit "56").
Proof.
  intros Hrun Hacc. repeat split.
  - intros Hsame. apply for_test_case_pass with (r := r); [assumption|].
    cbn [passes]. apply andb_true_iff. split.
    + apply status_eqb_true. exact Hacc.
    + apply eqb_eq. apply strip_eq_iff. exact Hsame.
  - intros Hdiff. apply for_test_case_mismatch; try assumption.
    intros E. apply Hdiff. apply strip_eq_iff. exact E.
  - apply strip_eq_iff. reflexivity.
  - intros Hsame. apply strip_eq_iff in Hsame. vm_compute in Hsame.
    discriminate.
Qed.

Lemma comparison_trims_only_the_ends_witness :
  let self := CodeExecutor__init__ in
  for_test_case Toy.host self (value PYTHON) Toy.divider 2
    [Toy.case "1" " 1 "; Toy.case "0" "0"] 0 0 Toy.boot
  = for_test_case Toy.host self (value PYTHON) Toy.divider 2
      [Toy.case "0" "0"] 1
      (PrimFloat.add 0 (runtime_or_0 (Some 15.625%float)))
      {| Toy.disk_full := false; Toy.files := [];
         Toy.clock := 100.015625 |}.
Proof.
  intros self.
  refine (proj1 (@comparison_trims_only_the_ends _ Toy.host self
                   (value PYTHON) Toy.divider 2 (Toy.case "1" " 1 ")
                   [Toy.case "0" "0"] 0%Z 0%float Toy.boot
                   {| status := ACCEPTED;
                      output := lit "1";
                      runtime := Some 15.625%float;
                      memory := Some 10%float;
                      passed_tests := 0;
                      total_tests := 0;
                      error_message := None |}
                   {| Toy.disk_full := false;
                      Toy.files := [];
                      Toy.clock := 100.015625 |} _ _) _).
  - vm_compute. reflexivity.
  - reflexivity.
  - apply strip_eq_iff. reflexivity.
Defined.

(** *** A submission that passes every case *)




(** *** Languages outside the enumeration *)

(** C5, as the code has it: a language that is none of the four values is
    answered at once, with nothing created on the host, by a result whose
    status is Runtime Error, whose output is "Unsupported language" and
    whose message is "Language not supported". *)
Theorem execute_code_unsupported_language {World : Type} (host : Host World)
  (self : CodeExecutor) (language code test_input : str) (w : World) :
  (forall l : LanguageEnum, language <> value l) ->
  execute_code host self language code test_input w
  = (Returned {| status := RUNTIME_ERROR;
                 output := lit "Unsupported language";
                 runtime := None;
                 memory := None;
                 passed_tests := 0;
                 total_tests := 0;
                 error_message := Some (lit "Language not supported") |}, w).
Proof.
  intros Hout. unfold execute_code, try_except.
  pose proof (Hout PYTHON) as Hp. apply eqb_neq in Hp.
  pose proof (Hout JAVASCRIPT) as Hjs. apply eqb_neq in Hjs.
  pose proof (Hout JAVA) as Hj. apply eqb_neq in Hj.
  pose proof (Hout CPP) as Hc. apply eqb_neq in Hc.
  rewrite Hp, Hjs, Hj, Hc. reflexivity.
Qed.

Lemma execute_code_unsupported_language_witness :
  execute_code Toy.host CodeExecutor__init__ (lit "ruby") (lit "puts 1") []
    Toy.boot
  = (Returned {| status := RUNTIME_ERROR;
                 output := lit "Unsupported language";
                 runtime := None;
                 memory := None;
                 passed_tests := 0;
                 total_tests := 0;
                 error_message := Some (lit "Language not supported") |},
     Toy.boot).
Proof.
  apply (@execute_code_unsupported_language _ Toy.host CodeExecutor__init__
           (lit "ruby") (lit "puts 1") [] Toy.boot).
  intros l; destruct l; vm_compute; discriminate.
Defined.

(** C5, as the claim has it: the classification of an unsupported language
    would differ from that of every failure of user code. For "ruby" the
    status is Runtime Error, the status that a submission dividing by zero
    gets. *)
Lemma unsupported_language_is_runtime_error :
  let self := CodeExecutor__init__ in
  option_map status
    (returned (execute_code Toy.host self (lit "ruby") (lit "puts 1") []
                 Toy.boot))
  = Some RUNTIME_ERROR /\
  option_map status
    (returned (execute_code Toy.host self (value PYTHON) Toy.divider (lit "0")
                 Toy.boot))
  = Some RUNTIME_ERROR.
Proof. vm_compute. split; reflexivity. Qed.

(** *** A child that exits with a non-zero status *)




(** *** A run that is not over at the time limit *)

(** C7, as the code has it: the limit of a new executor is 5 seconds. When a
    Python or JavaScript run is not over after the limit of the executor
    (the child has not exited, or a pipe of its output is still open), what
    [execute_code] returns depends on the removal and the closing of the
    temporary file that follow: Time Limit Exceeded when both succeed; when
    the removal raises and the closing succeeds, or when the closing raises,
    Runtime Error with the text of that exception. *)
Theorem run_past_time_limit {World : Type} (host : Host World)
  (self : CodeExecutor) (language code test_input : str) (w : World)
  (f : str) (start_time : float) (child : Child) (w1 : World) :
  is_interpreted language ->
  starts_child host language code test_input w f start_time child w1 ->
  runs_longer_than child (timeout self) ->
  timeout CodeExecutor__init__ = 5 /\
  (forall w2,
     cleans_up host f w1 w2 ->
     execute_code host self language code test_input w
     = (Returned {| status := TIME_LIMIT_EXCEEDED;
                    output := [];
                    runtime := None;
                    memory := None;
                    passed_tests := 0;
                    total_tests := 0;
                    error_message := Some (lit "Time limit exceeded") |}, w2)) /\
  (forall e w2 w3,
     os_unlink host f w1 = (Raised e, w2) ->
     f_close host f w2 = (Returned tt, w3) ->
     execute_code host self language code test_input w
     = (Returned {| status := RUNTIME_ERROR;
                    output := [];
                    runtime := None;
                    memory := None;
                    passed_tests := 0;
                    total_tests := 0;
                    error_message := Some (str_of_exception host e) |}, w3)) /\
  (forall o w2 e w3,
     os_unlink host f w1 = (o, w2) ->
     f_close host f w2 = (Raised e, w3) ->
     execute_code host self language code test_input w
     = (Returned {| status := RUNTIME_ERROR;
                    output := [];
                    runtime := None;
                    memory := None;
                    passed_tests := 0;
                    total_tests := 0;
                    error_message := Some (str_of_exception host e) |}, w3)).
Proof.
  intros Hlang Hstart Hlong. split; [reflexivity|].
  split; [|split].
  - intros w2 Hclean.
    apply execute_code_timed_out
      with (f := f) (start_time := start_time) (child := child) (w1 := w1);
      assumption.
  - intros e w2 w3 Hu Hc. unfold runs_longer_than in Hlong.
    open_language Hlang;
      destruct Hstart as (a & b & c & g & Hn & Hw & Hf & Ht & Hp);
      run_host'; rewrite Hlong; cbv beta iota; run_host'; reflexivity.
  - intros o w2 e w3 Hu Hc. unfold runs_longer_than in Hlong.
    destruct o as [u|e'];
      open_language Hlang;
      destruct Hstart as (a & b & c & g & Hn & Hw & Hf & Ht & Hp);
      run_host'; rewrite Hlong; cbv beta iota; run_host'; reflexivity.
Qed.

Lemma run_past_time_limit_witness :
  execute_code Toy.host CodeExecutor__init__ (value PYTHON) Toy.spinner
    (lit "1") Toy.boot
  = (Returned {| status := TIME_LIMIT_EXCEEDED;
                 output := [];
                 runtime := None;
                 memory := None;
                 passed_tests := 0;
                 total_tests := 0;
                 error_message := Some (lit "Time limit exceeded") |},
     Toy.boot).
Proof.
  pose (wf := {| Toy.disk_full := false;
                 Toy.files := [(lit "/tmp/tmpjudge.py", Toy.spinner)];
                 Toy.clock := 100 |}).
  refine (proj1 (proj2 (@run_past_time_limit _ Toy.host CodeExecutor__init__
                          (value PYTHON) Toy.spinner (lit "1") Toy.boot
                          (lit "/tmp/tmpjudge.py") 100
                          (Toy.program Toy.spinner (Some (lit "1"))) wf
                          _ _ _)) Toy.boot _).
  - left. reflexivity.
  - exists Toy.boot, wf, wf, wf. vm_compute. repeat split.
  - reflexivity.
  - exists Toy.boot. vm_compute. split; reflexivity.
Defined.

(** C7, as the claim has it: every run that exceeds the limit would be
    classified Time Limit Exceeded and nothing else. On a host where the
    temporary file cannot be removed (as when the submission has removed it
    itself) the run of [while True: pass] exceeds the limit and is answered
    by Runtime Error. *)
Lemma time_limit_with_failed_removal :
  let self := CodeExecutor__init__ in
  runs_longer_than (Toy.program Toy.spinner (Some (lit "1"))) (timeout self)
  /\
  option_map status
    (returned (execute_code (Faulty.host Faulty.UnlinkFails) self
                 (value PYTHON) Toy.spinner (lit "1") Toy.boot))
  = Some RUNTIME_ERROR /\
  option_map error_message
    (returned (execute_code (Faulty.host Faulty.UnlinkFails) self
                 (value PYTHON) Toy.spinner (lit "1") Toy.boot))
  = Some (Some (lit "[Errno 1] Operation not permitted")).
Proof. vm_compute. repeat split. Qed.

(** *** Failures of the host *)

(** C8, as the code has it: [execute_code] never raises; every exception
    that leaves a runner is caught and answered by a result with status
    Runtime Error, an empty output and the text of the exception as message.
    So it is when the temporary file cannot be created. *)
Theorem host_failure_is_runtime_error {World : Type} (host : Host World)
  (self : CodeExecutor) :
  (forall language code test_input w,
     exists r w',
       execute_code host self language code test_input w
       = (Returned r, w')) /\
  (forall code test_input w e w',
     _execute_python host self code test_input w = (Raised e, w') ->
     execute_code host self (value PYTHON) code test_input w
     = (Returned {| status := RUNTIME_ERROR;
                    output := [];
                    runtime := None;
                    memory := None;
                    passed_tests := 0;
                    total_tests := 0;
                    error_message := Some (str_of_exception host e) |}, w')) /\
  (forall code test_input w e w',
     _execute_javascript host self code test_input w = (Raised e, w') ->
     execute_code host self (value JAVASCRIPT) code test_input w
     = (Returned {| status := RUNTIME_ERROR;
                    output := [];
                    runtime := None;
                    memory := None;
                    passed_tests := 0;
                    total_tests := 0;
                    error_message := Some (str_of_exception host e) |}, w')) /\
  (forall language code test_input w e w',
     is_interpreted language ->
     NamedTemporaryFile host (source_suffix language) w = (Raised e, w') ->
     execute_code host self language code test_input w
     = (Returned {| status := RUNTIME_ERROR;
                    output := [];
                    runtime := None;
                    memory := None;
                    passed_tests := 0;
                    total_tests := 0;
                    error_message := Some (str_of_exception host e) |}, w')).
Proof.
  assert (Hpy : forall code test_input w e w',
             _execute_python host self code test_input w = (Raised e, w') ->
             execute_code host self (value PYTHON) code test_input w
             = (Returned {| status := RUNTIME_ERROR;
                    output := [];
                    runtime := None;
                    memory := None;
                    passed_tests := 0;
                    total_tests := 0;
                    error_message := Some (str_of_exception host e) |},
                w')).
  { intros c i w e w' Hr. unfold execute_code, try_except.
    rewrite eqb_refl, Hr. reflexivity. }
  assert (Hjs : forall code test_input w e w',
             _execute_javascript host self code test_input w
             = (Raised e, w') ->
             execute_code host self (value JAVASCRIPT) code test_input w
             = (Returned {| status := RUNTIME_ERROR;
                    output := [];
                    runtime := None;
                    memory := None;
                    passed_tests := 0;
                    total_tests := 0;
                    error_message := Some (str_of_exception host e) |},
                w')).
  { intros c i w e w' Hr. unfold execute_code, try_except.
    rewrite javascript_not_python, eqb_refl, Hr. reflexivity. }
  split; [|split; [exact Hpy|split; [exact Hjs|]]].
  - intros. apply execute_code_returns.
  - intros language code test_input w e w' Hlang Hfail.
    destruct Hlang as [-> | ->]; unfold source_suffix in Hfail;
      rewrite ?eqb_refl, ?javascript_not_python in Hfail.
    + apply Hpy. unfold _execute_python, bind. rewrite Hfail. reflexivity.
    + apply Hjs. unfold _execute_javascript, bind. rewrite Hfail.
      reflexivity.
Qed.

Lemma host_failure_is_runtime_error_witness :
  execute_code Toy.host CodeExecutor__init__ (value PYTHON) Toy.divider
    (lit "1") Toy.full
  = (Returned {| status := RUNTIME_ERROR;
                 output := [];
                 runtime := None;
                 memory := None;
                 passed_tests := 0;
                 total_tests := 0;
                 error_message :=
                   Some (lit "[Errno 28] No space left on device") |},
     Toy.full).
Proof.
  refine (proj2 (proj2 (proj2 (@host_failure_is_runtime_error _ Toy.host
                                 CodeExecutor__init__)))
            (value PYTHON) Toy.divider (lit "1") Toy.full
            (OtherException (lit "[Errno 28] No space left on device"))
            Toy.full _ _).
  - left. reflexivity.
  - reflexivity.
Defined.

(** C8, as the claim has it: a failure of the host would get a
    classification of its own, apart from Runtime Error. With a full disk
    the temporary file cannot be created, and the status of the result is
    Runtime Error, the status that a submission dividing by zero gets on a
    working host. *)
Lemma full_disk_is_runtime_error :
  let self := CodeExecutor__init__ in
  returned (NamedTemporaryFile Toy.host (lit ".py") Toy.full) = None /\
  option_map status
    (returned (execute_code Toy.host self (value PYTHON) Toy.divider (lit "1")
                 Toy.full))
  = Some RUNTIME_ERROR /\
  option_map status
    (returned (execute_code Toy.host self (value PYTHON) Toy.divider (lit "0")
                 Toy.boot))
  = Some RUNTIME_ERROR.
Proof. vm_compute. repeat split. Qed.

(** *** The mocked languages *)

(** C9: for Java and for C++ the result is fixed, whatever the code and the
    input: status Accepted, the output "Java execution mocked" with runtime
    50 and memory 25, and "C++ execution mocked" with runtime 30 and memory
    20. The host is not touched. *)
Theorem java_and_cpp_are_mocked {World : Type} (host : Host World)
  (self : CodeExecutor) (code test_input : str) (w : World) :
  execute_code host self (value JAVA) code test_input w
  = (Returned {| status := ACCEPTED;
                 output := lit "Java execution mocked";
                 runtime := Some 50%float;
                 memory := Some 25%float;
                 passed_tests := 0;
                 total_tests := 0;
                 error_message := None |}, w) /\
  execute_code host self (value CPP) code test_input w
  = (Returned {| status := ACCEPTED;
                 output := lit "C++ execution mocked";
                 runtime := Some 30%float;
                 memory := Some 20%float;
                 passed_tests := 0;
                 total_tests := 0;
                 error_message := None |}, w).
Proof. split; reflexivity. Qed.

(** *** No test case *)

(** C10: for the empty list of cases [test_solution] returns, without
    touching the host, status Accepted with [passed_tests] 0, [total_tests]
    0 and runtime 0. Nothing is raised: with no case the division of the
    average, which would raise on a zero divisor, is not evaluated. *)
Theorem test_solution_no_case {World : Type} (host : Host World)
  (self : CodeExecutor) (language code : str) (w : World) :
  test_solution host self language code [] w
  = (Returned {| status := ACCEPTED;
                 output := lit "All test cases passed!" ++ nl
                           ++ lit "Average Runtime: "
                           ++ format_2f host 0 ++ lit "ms";
                 runtime := Some 0%float;
                 memory := None;
                 passed_tests := 0;
                 total_tests := 0;
                 error_message := None |}, w).
Proof. reflexivity. Qed.

(** ** Further properties of the executor *)


(** The Wrong Answer that [test_solution] builds for a case. *)
Definition wrong_answer (test_case : TestCase) (r : CodeExecutionResult)
  (passed total : Z) : CodeExecutionResult :=
  {| status := WRONG_ANSWER;
     output := lit "Expected: " ++ strip (expected_output test_case) ++ nl
               ++ lit "Actual: " ++ strip (output r);
     runtime := runtime r;
     memory := None;
     passed_tests := passed;
     total_tests := total;
     error_message := None |}.

Lemma test_solution_accepted {World : Type} (host : Host World)
  (self : CodeExecutor) (language code : str) (test_cases : list TestCase)
  (w : World) :
  all_pass host self language code test_cases w ->
  exists r,
    test_solution host self language code test_cases w
    = (Returned r, world_after host self language code test_cases w) /\
    status r = ACCEPTED /\
    passed_tests r = Z.of_nat (List.length test_cases) /\
    total_tests r = Z.of_nat (List.length test_cases) /\
    memory r = None /\
    error_message r = None.
Proof.
  intros Hall. unfold test_solution.
  pose proof (for_test_case_prefix (Z.of_nat (List.length test_cases)) []
                0%Z 0%float Hall) as Hloop.
  rewrite app_nil_r in Hloop. rewrite Hloop. cbn [for_test_case].
  destruct test_cases as [|tc cases].
  - eexists. split; [reflexivity|]. cbn. repeat split.
  - assert (Hpos : (Z.of_nat (List.length (tc :: cases)) >? 0)%Z = true).
    { apply Z.gtb_lt. cbn [List.length]. lia. }
    assert (Hnz : (Z.of_nat (List.length (tc :: cases)) =? 0)%Z = false).
    { apply Z.eqb_neq. cbn [List.length]. lia. }
    unfold bind, truediv. rewrite Hpos, Hnz. unfold ret.
    eexists. split; [reflexivity|].
    cbn [status passed_tests total_tests memory error_message].
    repeat split; lia.
Qed.

Lemma test_solution_stops {World : Type} (host : Host World)
  (self : CodeExecutor) (language code : str)
  (pre : list TestCase) (test_case : TestCase) (post : list TestCase)
  (w : World) (r1 : CodeExecutionResult) (w1 : World) :
  all_pass host self language code pre w ->
  execute_code host self language code (input test_case)
    (world_after host self language code pre w) = (Returned r1, w1) ->
  passes test_case (Returned r1) = false ->
  test_solution host self language code (pre ++ test_case :: post) w
  = (Returned
       (if status_eqb (status r1) ACCEPTED
        then wrong_answer test_case r1 (Z.of_nat (List.length pre))
               (Z.of_nat (List.length (pre ++ test_case :: post)))
        else r1), w1).
Proof.
  intros Hpre Hrun Hfail. unfold test_solution.
  rewrite (for_test_case_prefix
             (Z.of_nat (List.length (pre ++ test_case :: post)))
             (test_case :: post) 0%Z 0%float Hpre).
  cbn [passes] in Hfail.
  destruct (status_eqb (status r1) ACCEPTED) eqn:Hacc.
  - cbn [andb] in Hfail.
    rewrite for_test_case_mismatch with (r := r1) (w1 := w1).
    + reflexivity.
    + exact Hrun.
    + apply status_eqb_true. exact Hacc.
    + apply eqb_neq. exact Hfail.
  - apply for_test_case_not_accepted; [exact Hrun|].
    apply status_eqb_false. exact Hacc.
Qed.

Lemma all_pass_dec {World : Type} (host : Host World) (self : CodeExecutor)
  (language code : str) (test_cases : list TestCase) (w : World) :
  {all_pass host self language code test_cases w}
  + {~ all_pass host self language code test_cases w}.
Proof. unfold all_pass. apply Nat.eq_dec. Qed.

(** The two shapes of a result of [test_solution]. *)
Lemma test_solution_outcome {World : Type} (host : Host World)
  (self : CodeExecutor) (language code : str) (test_cases : list TestCase)
  (w : World) :
  (all_pass host self language code test_cases w /\
   exists r,
     test_solution host self language code test_cases w
     = (Returned r, world_after host self language code test_cases w) /\
     status r = ACCEPTED /\
     passed_tests r = Z.of_nat (List.length test_cases) /\
     total_tests r = Z.of_nat (List.length test_cases)) \/
  (~ all_pass host self language code test_cases w /\
   exists pre test_case post r1 w1,
     test_cases = pre ++ test_case :: post /\
     all_pass host self language code pre w /\
     execute_code host self language code (input test_case)
       (world_after host self language code pre w) = (Returned r1, w1) /\
     passes test_case (Returned r1) = false /\
     runner_result r1 /\
     test_solution host self language code test_cases w
     = (Returned
          (if status_eqb (status r1) ACCEPTED
           then wrong_answer test_case r1 (Z.of_nat (List.length pre))
                  (Z.of_nat (List.length test_cases))
           else r1), w1)).
Proof.
  destruct (all_pass_dec host self language code test_cases w) as [Hall|Hnot].
  - left. split; [exact Hall|].
    destruct (test_solution_accepted Hall) as (r & Hr & Hs & Hp & Ht & _).
    exists r. repeat split; assumption.
  - right. split; [exact Hnot|].
    destruct (first_failure host self language code test_cases w)
      as [Hall | (pre & tc & post & Heq & Hpre & Hlen & Hfail)];
      [contradiction|].
    destruct (execute_code_returns host self language code (input tc)
                (world_after host self language code pre w))
      as (r1 & w1 & Hrun).
    rewrite Hrun in Hfail. cbn [fst] in Hfail.
    exists pre, tc, post, r1, w1.
    split; [exact Heq|]. split; [exact Hpre|]. split; [exact Hrun|].
    split; [exact Hfail|].
    split; [eapply execute_code_shape; exact Hrun|].
    subst test_cases. apply test_solution_stops; assumption.
Qed.

(** *** A child that exits with status zero *)



(** The output that [execute_code] returns is already trimmed. *)
Lemma execute_code_output_is_trimmed_aux {World : Type} (host : Host World)
  (self : CodeExecutor) (language code test_input : str) (w : World) :
  match execute_code host self language code test_input w with
  | (Returned r, _) => strip (output r) = output r
  | (Raised _, _) => False
  end.
Proof.
  assert (Hgoal : forall r w',
             execute_code host self language code test_input w
             = (Returned r, w') -> strip (output r) = output r).
  { unfold execute_code, try_except. intros r w' H.
    destruct (Str.eqb language (value PYTHON)).
    { destruct (_execute_python host self code test_input w) as [[a|e] w1]
        eqn:Hrun.
      - injection H as <- <-.
        eapply _execute_python_output_trimmed; eassumption.
      - unfold ret in H. injection H as <- <-. reflexivity. }
    destruct (Str.eqb language (value JAVASCRIPT)).
    { destruct (_execute_javascript host self code test_input w)
        as [[a|e] w1] eqn:Hrun.
      - injection H as <- <-.
        eapply _execute_javascript_output_trimmed; eassumption.
      - unfold ret in H. injection H as <- <-. reflexivity. }
    destruct (Str.eqb language (value JAVA)).
    { unfold _execute_java, ret in H. injection H as <- <-. reflexivity. }
    destruct (Str.eqb language (value CPP)).
    { unfold _execute_cpp, ret in H. injection H as <- <-. reflexivity. }
    unfold ret in H. injection H as <- <-. reflexivity. }
  destruct (execute_code_returns host self language code test_input w)
    as (r & w' & Hrun).
  rewrite Hrun. eapply Hgoal. exact Hrun.
Qed.

(** *** The output of every execution *)

(** X2: whatever the language, the code, the input and the host,
    [execute_code] returns, and the output of its result has no white space
    at either end: trimming it again, as [test_solution] does, changes
    nothing. *)
Theorem execute_code_output_is_trimmed {World : Type} (host : Host World)
  (self : CodeExecutor) (language code test_input : str) (w : World) :
  match execute_code host self language code test_input w with
  | (Returned r, _) => strip (output r) = output r /\ trimmed (output r)
  | (Raised _, _) => False
  end.
Proof.
  pose proof (execute_code_output_is_trimmed_aux host self language code
                test_input w) as H.
  destruct (execute_code host self language code test_input w)
    as [[r|e] w']; [|exact H].
  split; [exact H|]. rewrite <- H. apply strip_trimmed.
Qed.

(** *** The verdicts and counts of a submission *)

(** X3: [test_solution] always returns, never raises; its verdict is one of
    Accepted, Wrong Answer, Runtime Error and Time Limit Exceeded, never
    Memory Limit Exceeded or Compile Error; and its counts satisfy
    0 <= passed_tests <= total_tests <= number of cases. *)
Theorem test_solution_verdicts_and_counts {World : Type} (host : Host World)
  (self : CodeExecutor) (language code : str) (test_cases : list TestCase)
  (w : World) :
  match test_solution host self language code test_cases w with
  | (Returned r, _) =>
      (status r = ACCEPTED \/ status r = WRONG_ANSWER
       \/ status r = RUNTIME_ERROR \/ status r = TIME_LIMIT_EXCEEDED) /\
      (0 <= passed_tests r <= total_tests r)%Z /\
      (total_tests r <= Z.of_nat (List.length test_cases))%Z
  | (Raised _, _) => False
  end.
Proof.
  destruct (test_solution_outcome host self language code test_cases w)
    as [(_ & r & -> & Hs & Hp & Ht)
       | (_ & pre & tc & post & r1 & w1 & Heq & _ & _ & _ & Hshape & ->)].
  - repeat split; try lia. left. exact Hs.
  - destruct (status_eqb (status r1) ACCEPTED) eqn:Hacc.
    + cbn [wrong_answer status passed_tests total_tests].
      subst test_cases. rewrite length_app. cbn [List.length].
      repeat split; try lia. right. left. reflexivity.
    + apply status_eqb_false in Hacc.
      rewrite (runner_passed Hshape), (runner_total Hshape).
      repeat split; try lia.
      destruct (runner_status Hshape) as [H|[H|H]]; [contradiction| |];
        auto.
Qed.

(** X4: the verdict of [test_solution] is Accepted exactly when every case,
    executed in the given order, is accepted with an output equal to the
    expected one after trimming. *)
Theorem accepted_iff_all_pass {World : Type} (host : Host World)
  (self : CodeExecutor) (language code : str) (test_cases : list TestCase)
  (w : World) :
  match test_solution host self language code test_cases w with
  | (Returned r, _) =>
      status r = ACCEPTED <-> all_pass host self language code test_cases w
  | (Raised _, _) => False
  end.
Proof.
  destruct (test_solution_outcome host self language code test_cases w)
    as [(Hall & r & -> & Hs & _)
       | (Hnot & pre & tc & post & r1 & w1 & _ & _ & _ & _ & Hshape & ->)].
  - split; intros; assumption.
  - destruct (status_eqb (status r1) ACCEPTED) eqn:Hacc.
    + split; [discriminate | contradiction].
    + apply status_eqb_false in Hacc. split; [contradiction | contradiction].
Qed.

(** *** The first case that does not pass *)

(** X5: when the cases before one have passed and the run of that case is
    accepted with an output that differs from the expected one after
    trimming, [test_solution] returns Wrong Answer with the two trimmed
    texts in its output, the runtime of that run, the number of cases before
    it as [passed_tests] and the number of all cases as [total_tests]; the
    cases that follow are not executed. *)
Theorem wrong_answer_reports_first_mismatch {World : Type}
  (host : Host World) (self : CodeExecutor) (language code : str)
  (pre : list TestCase) (test_case : TestCase) (post : list TestCase)
  (w : World) (r1 : CodeExecutionResult) (w1 : World) :
  all_pass host self language code pre w ->
  execute_code host self language code (input test_case)
    (world_after host self language code pre w) = (Returned r1, w1) ->
  status r1 = ACCEPTED ->
  strip (expected_output test_case) <> output r1 ->
  test_solution host self language code (pre ++ test_case :: post) w
  = (Returned {| status := WRONG_ANSWER;
                 output := lit "Expected: "
                           ++ strip (expected_output test_case) ++ nl
                           ++ lit "Actual: " ++ output r1;
                 runtime := runtime r1;
                 memory := None;
                 passed_tests := Z.of_nat (List.length pre);
                 total_tests :=
                   Z.of_nat (List.length pre + 1 + List.length post);
                 error_message := None |}, w1).
Proof.
  intros Hpre Hrun Hacc Hne.
  assert (Htrim : strip (output r1) = output r1).
  { pose proof (execute_code_output_is_trimmed_aux host self language code
                  (input test_case)
                  (world_after host self language code pre w)) as Ht.
    rewrite Hrun in Ht. exact Ht. }
  rewrite test_solution_stops with (r1 := r1) (w1 := w1); try assumption.
  - apply status_eqb_true in Hacc. rewrite Hacc. unfold wrong_answer.
    rewrite Htrim, length_app. cbn [List.length].
    replace (List.length pre + S (List.length post))%nat
      with (List.length pre + 1 + List.length post)%nat by lia.
    reflexivity.
  - cbn [passes]. apply status_eqb_true in Hacc. rewrite Hacc, Htrim.
    apply eqb_neq. exact Hne.
Qed.

Lemma wrong_answer_reports_first_mismatch_witness :
  test_solution Toy.host CodeExecutor__init__ (value PYTHON) Toy.divider
    ([Toy.case "1" "1"] ++ Toy.case "1" "2" :: [Toy.case "0" "0"]) Toy.boot
  = (Returned {| status := WRONG_ANSWER;
                 output := lit "Expected: " ++ lit "2" ++ nl
                           ++ lit "Actual: " ++ lit "1";
                 runtime := Some 15.625%float;
                 memory := None;
                 passed_tests := 1;
                 total_tests := 3;
                 error_message := None |},
     {| Toy.disk_full := false; Toy.files := [];
        Toy.clock := 100.03125 |}).
Proof.
  refine (@wrong_answer_reports_first_mismatch _ Toy.host
            CodeExecutor__init__ (value PYTHON) Toy.divider
            [Toy.case "1" "1"] (Toy.case "1" "2") [Toy.case "0" "0"]
            Toy.boot
            {| status := ACCEPTED;
               output := lit "1";
               runtime := Some 15.625%float;
               memory := Some 10%float;
               passed_tests := 0;
               total_tests := 0;
               error_message := None |}
            {| Toy.disk_full := false; Toy.files := [];
               Toy.clock := 100.03125 |} _ _ _ _).
  - vm_compute. reflexivity.
  - vm_compute. reflexivity.
  - reflexivity.
  - vm_compute. discriminate.
Defined.

(** X6: when the cases before one have passed and the run of that case is
    not accepted, whatever the reason (non-zero exit, time limit, failure of
    the host, unsupported language), [test_solution] returns the result of
    that run unchanged and leaves the host as that run left it: the cases
    that follow are not executed. *)
Theorem failed_run_ends_submission {World : Type} (host : Host World)
  (self : CodeExecutor) (language code : str)
  (pre : list TestCase) (test_case : TestCase) (post : list TestCase)
  (w : World) (r1 : CodeExecutionResult) (w1 : World) :
  all_pass host self language code pre w ->
  execute_code host self language code (input test_case)
    (world_after host self language code pre w) = (Returned r1, w1) ->
  status r1 <> ACCEPTED ->
  test_solution host self language code (pre ++ test_case :: post) w
  = (Returned r1, w1).
Proof.
  intros Hpre Hrun Hacc. apply status_eqb_false in Hacc.
  rewrite test_solution_stops with (r1 := r1) (w1 := w1); try assumption.
  - rewrite Hacc. reflexivity.
  - cbn [passes]. rewrite Hacc. reflexivity.
Qed.

Lemma failed_run_ends_submission_witness :
  test_solution Toy.host CodeExecutor__init__ (value PYTHON) Toy.spinner
    ([] ++ Toy.case "1" "1" :: [Toy.case "1" "1"]) Toy.boot
  = (Returned {| status := TIME_LIMIT_EXCEEDED;
                 output := [];
                 runtime := None;
                 memory := None;
                 passed_tests := 0;
                 total_tests := 0;
                 error_message := Some (lit "Time limit exceeded") |},
     Toy.boot).
Proof.
  apply (@failed_run_ends_submission _ Toy.host CodeExecutor__init__
           (value PYTHON) Toy.spinner [] (Toy.case "1" "1")
           [Toy.case "1" "1"] Toy.boot).
  - reflexivity.
  - vm_compute. reflexivity.
  - discriminate.
Defined.

(** *** Failures around the child *)

(** The state in which the [finally] clause of a runner starts, once the
    child is started in [w1]: after the second reading of the clock (whether
    that returns or raises) when the run is over within the limit, else [w1]
    itself. *)
Definition before_cleanup {World : Type} (host : Host World)
  (self : CodeExecutor) (child : Child) (w1 w2 : World) : Prop :=
  if finished_within child (timeout self)
  then exists o, time_time host w1 = (o, w2)
  else w2 = w1.

(** X7: whatever the child did (exit with status 0 or any other within the
    limit, or a run that is not over at the limit), when the removal of the
    temporary file raises (the file then being closed without error) the
    result of the run is discarded: [execute_code] returns Runtime Error
    with an empty output and the text of that exception. *)
Theorem unlink_failure_replaces_result {World : Type} (host : Host World)
  (self : CodeExecutor) (language code test_input : str) (w : World)
  (f : str) (start_time : float) (child : Child) (w1 w2 : World)
  (e : Exception) (w3 w4 : World) :
  is_interpreted language ->
  starts_child host language code test_input w f start_time child w1 ->
  before_cleanup host self child w1 w2 ->
  os_unlink host f w2 = (Raised e, w3) ->
  f_close host f w3 = (Returned tt, w4) ->
  execute_code host self language code test_input w
  = (Returned {| status := RUNTIME_ERROR;
                 output := [];
                 runtime := None;
                 memory := None;
                 passed_tests := 0;
                 total_tests := 0;
                 error_message := Some (str_of_exception host e) |}, w4).
Proof.
  intros Hlang Hstart Hbefore Hu Hc. unfold before_cleanup in Hbefore.
  destruct (finished_within child (timeout self)) eqn:Hfin.
  - destruct Hbefore as [[end_time|e'] Hend];
      open_language Hlang;
      destruct Hstart as (a & b & c & g & Hn & Hw & Hf & Ht & Hp);
      run_host'; rewrite Hfin; cbv beta iota; run_host';
      cbn [returncode stdout stderr];
      try destruct (exit_status child =? 0)%Z; try destruct e';
      run_host'; reflexivity.
  - subst w2.
    open_language Hlang;
      destruct Hstart as (a & b & c & g & Hn & Hw & Hf & Ht & Hp);
      run_host'; rewrite Hfin; cbv beta iota; run_host'; reflexivity.
Qed.

Lemma unlink_failure_replaces_result_witness :
  execute_code (Faulty.host Faulty.UnlinkFails) CodeExecutor__init__
    (value PYTHON) Toy.divider (lit "1") Toy.boot
  = (Returned {| status := RUNTIME_ERROR;
                 output := [];
                 runtime := None;
                 memory := None;
                 passed_tests := 0;
                 total_tests := 0;
                 error_message :=
                   Some (lit "[Errno 1] Operation not permitted") |},
     {| Toy.disk_full := false;
        Toy.files := [(lit "/tmp/tmpjudge.py", Toy.divider)];
        Toy.clock := 100.015625 |}).
Proof.
  pose (wf := {| Toy.disk_full := false;
                 Toy.files := [(lit "/tmp/tmpjudge.py", Toy.divider)];
                 Toy.clock := 100 |}).
  pose (wr := {| Toy.disk_full := false;
                 Toy.files := [(lit "/tmp/tmpjudge.py", Toy.divider)];
                 Toy.clock := 100.015625 |}).
  refine (@unlink_failure_replaces_result _ (Faulty.host Faulty.UnlinkFails)
            CodeExecutor__init__ (value PYTHON) Toy.divider (lit "1")
            Toy.boot (lit "/tmp/tmpjudge.py") 100
            (Toy.program Toy.divider (Some (lit "1"))) wr wr
            Faulty.not_permitted wr wr _ _ _ _ _).
  - left. reflexivity.
  - exists Toy.boot, wf, wf, wf. vm_compute. repeat split.
  - exists (Returned 100.015625%float). reflexivity.
  - reflexivity.
  - reflexivity.
Defined.

(** X8: when the interpreter cannot be started, the exception of the spawn
    being one other than the time limit, the temporary file is still
    unlinked and closed and [execute_code] returns Runtime Error with an
    empty output and the text of the exception. *)
Theorem spawn_failure_is_runtime_error {World : Type} (host : Host World)
  (self : CodeExecutor) (language code test_input : str) (w : World)
  (f : str) (start_time : float) (w1 : World) (message : str)
  (w2 w3 : World) :
  is_interpreted language ->
  writes_source host language code test_input w f start_time w1 ->
  Popen host (command language f) (child_stdin language test_input) w1
  = (Raised (OtherException message), w2) ->
  cleans_up host f w2 w3 ->
  execute_code host self language code test_input w
  = (Returned {| status := RUNTIME_ERROR;
                 output := [];
                 runtime := None;
                 memory := None;
                 passed_tests := 0;
                 total_tests := 0;
                 error_message := Some message |}, w3).
Proof.
  intros Hlang Hsrc Hp (w4 & Hu & Hc).
  open_language Hlang;
    destruct Hsrc as (a & b & c & Hn & Hw & Hf & Ht);
    run_host'; reflexivity.
Qed.

Lemma spawn_failure_is_runtime_error_witness :
  execute_code (Faulty.host Faulty.SpawnFails) CodeExecutor__init__
    (value PYTHON) Toy.divider (lit "1") Toy.boot
  = (Returned {| status := RUNTIME_ERROR;
                 output := [];
                 runtime := None;
                 memory := None;
                 passed_tests := 0;
                 total_tests := 0;
                 error_message :=
                   Some (lit "[Errno 2] No such file or directory: 'python3'")
              |}, Toy.boot).
Proof.
  pose (wf := {| Toy.disk_full := false;
                 Toy.files := [(lit "/tmp/tmpjudge.py", Toy.divider)];
                 Toy.clock := 100 |}).
  refine (@spawn_failure_is_runtime_error _ (Faulty.host Faulty.SpawnFails)
            CodeExecutor__init__ (value PYTHON) Toy.divider (lit "1")
            Toy.boot (lit "/tmp/tmpjudge.py") 100 wf
            (lit "[Errno 2] No such file or directory: 'python3'")
            wf Toy.boot _ _ _ _).
  - left. reflexivity.
  - exists Toy.boot, wf, wf. vm_compute. repeat split.
  - reflexivity.
  - exists Toy.boot. vm_compute. split; reflexivity.
Defined.

(** X9: when writing the source to the temporary file raises, the file is
    closed but not unlinked (the host is left as [close] left it), no child
    is started, and [execute_code] returns Runtime Error with an empty
    output and the text of the exception. *)
Theorem write_failure_skips_unlink {World : Type} (host : Host World)
  (self : CodeExecutor) (language code test_input : str) (w : World)
  (f : str) (w1 : World) (e : Exception) (w2 w3 : World) :
  is_interpreted language ->
  NamedTemporaryFile host (source_suffix language) w = (Returned f, w1) ->
  f_write host f (source_text language code test_input) w1 = (Raised e, w2) ->
  f_close host f w2 = (Returned tt, w3) ->
  execute_code host self language code test_input w
  = (Returned {| status := RUNTIME_ERROR;
                 output := [];
                 runtime := None;
                 memory := None;
                 passed_tests := 0;
                 total_tests := 0;
                 error_message := Some (str_of_exception host e) |}, w3).
Proof.
  intros Hlang Hn Hw Hc.
  open_language Hlang; run_host'; reflexivity.
Qed.

Lemma write_failure_skips_unlink_witness :
  execute_code (Faulty.host Faulty.WriteFails) CodeExecutor__init__
    (value PYTHON) Toy.divider (lit "1") Toy.boot
  = (Returned {| status := RUNTIME_ERROR;
                 output := [];
                 runtime := None;
                 memory := None;
                 passed_tests := 0;
                 total_tests := 0;
                 error_message :=
                   Some (lit "[Errno 28] No space left on device") |},
     Toy.boot).
Proof.
  refine (@write_failure_skips_unlink _ (Faulty.host Faulty.WriteFails)
            CodeExecutor__init__ (value PYTHON) Toy.divider (lit "1")
            Toy.boot (lit "/tmp/tmpjudge.py") Toy.boot Faulty.no_space
            Toy.boot Toy.boot _ _ _ _).
  - left. reflexivity.
  - reflexivity.
  - reflexivity.
  - reflexivity.
Defined.

(** *** The calls that an execution makes *)








(** *** Submissions in a mocked language *)

Definition is_mocked (language : str) : Prop :=
  language = value JAVA \/ language = value CPP.

(** What the runner of a mocked language returns. *)
Definition mock_result (language : str) : CodeExecutionResult :=
  if Str.eqb language (value JAVA)
  then {| status := ACCEPTED;
          output := lit "Java execution mocked";
          runtime := Some 50%float;
          memory := Some 25%float;
          passed_tests := 0;
          total_tests := 0;
          error_message := None |}
  else {| status := ACCEPTED;
          output := lit "C++ execution mocked";
          runtime := Some 30%float;
          memory := Some 20%float;
          passed_tests := 0;
          total_tests := 0;
          error_message := None |}.

(** The case expects this text, white space around set aside. *)
Definition expects (text : str) (test_case : TestCase) : bool :=
  Str.eqb (strip (expected_output test_case)) text.

(** The number of cases before the first one that the test rejects. *)
Fixpoint leading (p : TestCase -> bool) (l : list TestCase) : nat :=
  match l with
  | [] => 0%nat
  | x :: l' => if p x then S (leading p l') else 0%nat
  end.

Lemma execute_code_mocked {World : Type} (host : Host World)
  (self : CodeExecutor) (language code test_input : str) (w : World) :
  is_mocked language ->
  execute_code host self language code test_input w
  = (Returned (mock_result language), w).
Proof.
  intros [-> | ->]; reflexivity.
Qed.

(** The fixed runtime of a mocked language. *)
Definition mock_runtime (language : str) : float :=
  if Str.eqb language (value JAVA) then 50%float else 30%float.

Lemma mock_result_accepted (language : str) :
  status (mock_result language) = ACCEPTED /\
  strip (output (mock_result language)) = output (mock_result language) /\
  elapsed_ms (Returned (mock_result language)) = mock_runtime language /\
  runtime (mock_result language) = Some (mock_runtime language).
Proof.
  unfold mock_result, mock_runtime. destruct (Str.eqb language (value JAVA));
    repeat split; reflexivity.
Qed.

Lemma mocked_cases {World : Type} (host : Host World) (self : CodeExecutor)
  (language code : str) (test_cases : list TestCase) (w : World) :
  is_mocked language ->
  world_after host self language code test_cases w = w /\
  case_outcomes host self language code test_cases w
  = List.map (fun _ => Returned (mock_result language)) test_cases /\
  leading_passes test_cases
    (case_outcomes host self language code test_cases w)
  = leading (expects (output (mock_result language))) test_cases.
Proof.
  intros Hm. destruct (mock_result_accepted language) as (Hs & Ht & _).
  induction test_cases as [|tc cases (IHw & IHo & IHl)].
  - repeat split.
  - cbn [world_after case_outcomes leading_passes leading List.map].
    rewrite (execute_code_mocked host self code (input tc) w Hm).
    cbn [snd leading_passes passes].
    rewrite IHw, IHo. split; [reflexivity|]. split; [reflexivity|].
    rewrite <- IHo, IHl. unfold expects at 1. rewrite Hs, Ht.
    reflexivity.
Qed.

Lemma leading_all (p : TestCase -> bool) (l : list TestCase) :
  leading p l = List.length l <-> forallb p l = true.
Proof.
  induction l as [|x l IH]; cbn [leading forallb List.length].
  - split; reflexivity.
  - destruct (p x); cbn [andb].
    + rewrite <- IH. split; [intros [= H]; exact H | intros ->; reflexivity].
    + split; discriminate.
Qed.

Lemma leading_le (p : TestCase -> bool) (l : list TestCase) :
  (leading p l <= List.length l)%nat.
Proof.
  induction l as [|x l IH]; cbn [leading List.length]; [lia|].
  destruct (p x); lia.
Qed.

(** The mean of [n] copies of a float [c] as the loop computes it: [c]
    added [n] times to 0, the sum divided by [n]. *)
Definition mean_of_copies (c : float) (n : nat) : float :=
  PrimFloat.div (float_sum 0 (List.repeat c n))
    (Num.float_of_int (Z.of_nat n)).

(** A check, by computation, that this mean is [c] itself for the sums [s],
    counts [k] and [fuel] further copies. *)
Fixpoint means_exact (c : float) (fuel : nat) (k : int) (s : float) : bool :=
  match fuel with
  | O => true
  | S fuel' =>
      let s' := PrimFloat.add s c in
      let k' := Uint63.add k 1 in
      PrimFloat.Leibniz.eqb (PrimFloat.div s' (PrimFloat.of_uint63 k')) c
      && means_exact c fuel' k' s'
  end.

(** The largest number of cases for which the check is run: 2^20. *)
Definition checked_cases : nat := Nat.pow 2 20.

Lemma float_sum_snoc (s c : float) (n : nat) :
  float_sum s (List.repeat c (S n))
  = PrimFloat.add (float_sum s (List.repeat c n)) c.
Proof.
  unfold float_sum. revert s.
  induction n as [|n IH]; intros s; [reflexivity|].
  change (List.repeat c (S (S n))) with (c :: List.repeat c (S n)).
  cbn [fold_left]. rewrite IH. reflexivity.
Qed.

Lemma of_Z_succ (n : nat) :
  Uint63.of_Z (Z.of_nat (S n)) = Uint63.add (Uint63.of_Z (Z.of_nat n)) 1.
Proof.
  apply Uint63.to_Z_inj.
  rewrite Uint63.add_spec, !Uint63.of_Z_spec, Uint63.to_Z_1.
  rewrite Nat2Z.inj_succ, <- Z.add_1_r.
  rewrite Zplus_mod_idemp_l. reflexivity.
Qed.

Lemma means_exact_spec (c : float) (fuel : nat) :
  forall n,
    means_exact c fuel (Uint63.of_Z (Z.of_nat n))
      (float_sum 0 (List.repeat c n)) = true ->
    forall j, (1 <= j <= fuel)%nat -> mean_of_copies c (n + j) = c.
Proof.
  induction fuel as [|fuel IH]; intros n Hcheck j Hj; [lia|].
  cbn [means_exact] in Hcheck. apply andb_true_iff in Hcheck.
  destruct Hcheck as [Hhere Hrest].
  rewrite <- of_Z_succ, <- float_sum_snoc in Hhere, Hrest.
  destruct (Nat.eq_dec j 1) as [-> | Hne].
  - apply FloatAxioms.Leibniz.eqb_spec in Hhere.
    replace (n + 1)%nat with (S n) by lia.
    unfold mean_of_copies, Num.float_of_int.
    replace (Z.of_nat (S n) <? 0)%Z with false
      by (symmetry; apply Z.ltb_ge; lia).
    exact Hhere.
  - replace (n + j)%nat with (S n + (j - 1))%nat by lia.
    apply IH; [exact Hrest | lia].
Qed.

Lemma fifty_is_exact : means_exact 50 checked_cases 0 0 = true.
Proof. vm_compute. reflexivity. Qed.

Lemma thirty_is_exact : means_exact 30 checked_cases 0 0 = true.
Proof. vm_compute. reflexivity. Qed.

Lemma mock_mean_is_exact (language : str) (n : nat) :
  (1 <= n <= checked_cases)%nat ->
  mean_of_copies (mock_runtime language) n = mock_runtime language.
Proof.
  intros Hn. unfold mock_runtime.
  destruct (Str.eqb language (value JAVA)).
  - exact (@means_exact_spec 50 checked_cases 0%nat fifty_is_exact n Hn).
  - exact (@means_exact_spec 30 checked_cases 0%nat thirty_is_exact n Hn).
Qed.

Lemma leading_stops (p : TestCase -> bool) (pre : list TestCase)
  (x : TestCase) (post : list TestCase) :
  leading p pre = List.length pre -> p x = false ->
  leading p (pre ++ x :: post) = List.length pre.
Proof.
  intros Hpre Hx. induction pre as [|y pre IH];
    cbn [leading List.length app] in *.
  - rewrite Hx. reflexivity.
  - destruct (p y); [|discriminate]. injection Hpre as Hpre.
    rewrite (IH Hpre). reflexivity.
Qed.

Lemma mocked_loop_ignores_code {World : Type} (host : Host World)
  (self : CodeExecutor) (language code code' : str) (total : Z)
  (test_cases : list TestCase) (w : World) :
  is_mocked language ->
  forall passed total_runtime,
    for_test_case host self language code total test_cases
      passed total_runtime w
    = for_test_case host self language code' total test_cases
        passed total_runtime w.
Proof.
  intros Hm. induction test_cases as [|tc cases IH]; intros passed tr.
  - reflexivity.
  - cbn [for_test_case]. unfold bind at 1 2.
    rewrite !(execute_code_mocked host self _ (input tc) w Hm).
    destruct (status_eqb (status (mock_result language)) ACCEPTED);
      [|reflexivity].
    destruct (Str.eqb (strip (expected_output tc))
                (strip (output (mock_result language)))); [|reflexivity].
    apply IH.
Qed.

(** X11: a submission in Java or C++ is graded without the code and without
    the host. Its result is the same for any two codes and the host is left
    untouched. When every expected output, trimmed, is the fixed text of
    the language, the verdict is Accepted with all cases passed and, as
    runtime, the mean that the loop computes of as many copies of the fixed
    runtime of the language as there are cases; for 1 to 2^20 cases that
    mean is the fixed runtime itself. Otherwise the verdict is Wrong
    Answer, with as [passed_tests] the number of cases before the first one
    that expects something else. *)
Theorem mocked_language_ignores_code {World : Type} (host : Host World)
  (self : CodeExecutor) (language code code' : str)
  (test_cases : list TestCase) (w : World) :
  is_mocked language ->
  let said := output (mock_result language) in
  exists r,
    test_solution host self language code test_cases w = (Returned r, w) /\
    test_solution host self language code' test_cases w = (Returned r, w) /\
    (forallb (expects said) test_cases = true ->
     status r = ACCEPTED /\
     passed_tests r = Z.of_nat (List.length test_cases) /\
     total_tests r = Z.of_nat (List.length test_cases) /\
     runtime r
     = Some match test_cases with
            | [] => 0%float
            | _ :: _ =>
                mean_of_copies (mock_runtime language)
                  (List.length test_cases)
            end /\
     (test_cases <> [] ->
      (List.length test_cases <= checked_cases)%nat ->
      runtime r = Some (mock_runtime language))) /\
    (forallb (expects said) test_cases = false ->
     status r = WRONG_ANSWER /\
     passed_tests r = Z.of_nat (leading (expects said) test_cases) /\
     total_tests r = Z.of_nat (List.length test_cases) /\
     runtime r = runtime (mock_result language)).
Proof.
  intros Hm said. subst said.
  destruct (mocked_cases host self code test_cases w Hm)
    as (Hw & Ho & Hl).
  assert (Hcode : test_solution host self language code' test_cases w
                  = test_solution host self language code test_cases w).
  { unfold test_solution. apply mocked_loop_ignores_code. exact Hm. }
  rewrite Hcode.
  destruct (forallb (expects (output (mock_result language))) test_cases)
    eqn:Hf.
  - assert (Hall : all_pass host self language code test_cases w).
    { unfold all_pass. rewrite Hl. apply leading_all. exact Hf. }
    unfold test_solution.
    pose proof (for_test_case_prefix (Z.of_nat (List.length test_cases)) []
                  0%Z 0%float Hall) as Hloop.
    rewrite app_nil_r in Hloop. rewrite Hloop, Hw, Ho. cbn [for_test_case].
    destruct test_cases as [|tc cases].
    + eexists. split; [reflexivity|]. split; [reflexivity|].
      split; [|discriminate]. intros _.
      cbn [status passed_tests total_tests runtime List.length Z.of_nat].
      split; [reflexivity|]. split; [reflexivity|]. split; [reflexivity|].
      split; [reflexivity|].
      intros H. contradiction H. reflexivity.
    + assert (Hpos : (Z.of_nat (List.length (tc :: cases)) >? 0)%Z = true).
      { apply Z.gtb_lt. cbn [List.length]. lia. }
      assert (Hnz : (Z.of_nat (List.length (tc :: cases)) =? 0)%Z = false).
      { apply Z.eqb_neq. cbn [List.length]. lia. }
      unfold bind, truediv. rewrite Hpos, Hnz. unfold ret.
      assert (Hmean :
                PrimFloat.div
                  (float_sum 0
                     (List.map elapsed_ms
                        (List.map (fun _ => Returned (mock_result language))
                           (tc :: cases))))
                  (Num.float_of_int (Z.of_nat (List.length (tc :: cases))))
                = mean_of_copies (mock_runtime language)
                    (List.length (tc :: cases))).
      { unfold mean_of_copies. f_equal. f_equal.
        rewrite List.map_map.
        destruct (mock_result_accepted language) as (_ & _ & He & _).
        generalize (tc :: cases). intros l.
        induction l as [|x l IH]; [reflexivity|].
        cbn [List.map List.length List.repeat]. rewrite IH, He.
        reflexivity. }
      eexists. split; [reflexivity|]. split; [reflexivity|].
      split; [|discriminate]. intros _.
      cbn [status passed_tests total_tests runtime].
      split; [reflexivity|]. split; [lia|]. split; [reflexivity|].
      split; [rewrite Hmean; reflexivity|].
      intros _ Hlen. rewrite Hmean.
      rewrite mock_mean_is_exact; [reflexivity|].
      cbn [List.length] in *. lia.
  - assert (Hnot : ~ all_pass host self language code test_cases w).
    { unfold all_pass. rewrite Hl. intros E. apply leading_all in E.
      congruence. }
    destruct (test_solution_outcome host self language code test_cases w)
      as [(Hall & _)
         | (_ & pre & tc & post & r1 & w1 & Heq & Hpre & Hrun & Hfail
            & _ & Hr)]; [contradiction|].
    destruct (mocked_cases host self code pre w Hm) as (Hwp & _ & Hlp).
    rewrite Hwp, (execute_code_mocked host self code (input tc) w Hm)
      in Hrun.
    injection Hrun as <- <-.
    destruct (mock_result_accepted language) as (Hs & Htrim & _).
    cbn [passes] in Hfail.
    apply status_eqb_true in Hs. rewrite Hs in Hfail, Hr.
    cbn [andb] in Hfail. rewrite Htrim in Hfail.
    rewrite Hr. eexists. split; [reflexivity|]. split; [reflexivity|].
    split; [discriminate|]. intros _.
    cbn [wrong_answer status passed_tests total_tests runtime].
    repeat split.
    subst test_cases. f_equal. symmetry. apply leading_stops.
    + unfold all_pass in Hpre. rewrite Hlp in Hpre. exact Hpre.
    + exact Hfail.
Qed.

Lemma mocked_language_ignores_code_witness :
  exists r,
    test_solution Toy.host CodeExecutor__init__ (value JAVA)
      (lit "class Solution {}")
      [Toy.case "1" "Java execution mocked"; Toy.case "2" "3"] Toy.boot
    = (Returned r, Toy.boot) /\
    test_solution Toy.host CodeExecutor__init__ (value JAVA) (lit "garbage")
      [Toy.case "1" "Java execution mocked"; Toy.case "2" "3"] Toy.boot
    = (Returned r, Toy.boot) /\
    status r = WRONG_ANSWER /\ passed_tests r = 1%Z /\ total_tests r = 2%Z.
Proof.
  destruct (@mocked_language_ignores_code _ Toy.host CodeExecutor__init__
              (value JAVA) (lit "class Solution {}") (lit "garbage")
              [Toy.case "1" "Java execution mocked"; Toy.case "2" "3"]
              Toy.boot) as (r & H1 & H2 & _ & Hwa).
  - left. reflexivity.
  - destruct Hwa as (Hs & Hp & Ht & _); [vm_compute; reflexivity|].
    exists r. repeat split; assumption.
Defined.

(** ** database.py *)

Module Database.

(** [client[db_name]]: a handle on one database of a client. *)
Record Handle (Client : Type) : Type := {
  of_client : Client;
  name : str
}.

(** The two module-level variables [client] and [db]. *)
Record Globals (Client : Type) : Type := {
  client : option Client;
  db : option (Handle Client)
}.

(** The driver: the construction of a client and its [close]. *)
Record Driver (World Client : Type) : Type := {
  AsyncIOMotorClient : str -> M World Client;
  close : Client -> M World unit
}.

Arguments AsyncIOMotorClient {World Client} d _ _.
Arguments close {World Client} d _ _.

Section Connection.

Context {World Client : Type} (driver : Driver World Client).
Variables (mongo_url db_name : str).

Definition connect_to_mongo : M (World * Globals Client) unit :=
  fun s =>
    match AsyncIOMotorClient driver mongo_url (fst s) with
    | (Returned c, w') =>
        (Returned tt,
         (w', {| client := Some c;
                 db := Some {| of_client := c; name := db_name |} |}))
    | (Raised e, w') => (Raised e, (w', snd s))
    end.


(** [return db] gives the value of the global, which may be [None]. *)
Definition get_database : M (World * Globals Client) (option (Handle Client))
  :=
  fun s =>
    match db (snd s) with
    | None =>
        match connect_to_mongo s with
        | (Returned _, s') => (Returned (db (snd s')), s')
        | (Raised e, s') => (Raised e, s')
        end
    | Some h => (Returned (Some h), s)
    end.

End Connection.

(** A driver whose state is the list of the clients constructed and closed,
    in order; a client is known by its rank. *)
Inductive Event : Set := Constructed (c : nat) | Closed (c : nat).

Definition recording : Driver (list Event) nat := {|
  AsyncIOMotorClient := fun url w =>
    (Returned (List.length w), w ++ [Constructed (List.length w)]);
  close := fun c w => (Returned tt, w ++ [Closed c])
|}.

End Database.

(** X12: when [get_database] returns, it returns a handle, not [None], and a
    second call returns the same handle and leaves everything as it is: no
    second client is constructed. *)
Theorem get_database_connects_once {World Client : Type}
  (driver : Database.Driver World Client) (mongo_url db_name : str)
  (s s' : World * Database.Globals Client)
  (d : option (Database.Handle Client)) :
  Database.get_database driver mongo_url db_name s = (Returned d, s') ->
  d <> None /\
  Database.get_database driver mongo_url db_name s' = (Returned d, s').
Proof.
  unfold Database.get_database, Database.connect_to_mongo. intros H.
  destruct (Database.db (snd s)) as [h|] eqn:Hdb.
  - injection H as <- <-. split; [discriminate|]. rewrite Hdb. reflexivity.
  - destruct (Database.AsyncIOMotorClient driver mongo_url (fst s))
      as [[c|e] w']; [|discriminate].
    injection H as <- <-. cbn. split; [discriminate | reflexivity].
Qed.

Lemma get_database_connects_once_witness :
  let h := {| Database.of_client := 0%nat; Database.name := lit "judge" |} in
  let s' := ([Database.Constructed 0],
             {| Database.client := Some 0%nat; Database.db := Some h |}) in
  Some h <> None /\
  Database.get_database Database.recording (lit "mongodb://localhost")
    (lit "judge") s'
  = (Returned (Some h), s').
Proof.
  intros h s'.
  refine (@get_database_connects_once _ _ Database.recording
            (lit "mongodb://localhost") (lit "judge")
            ([], {| Database.client := None; Database.db := None |})
            s' (Some h) _).
  reflexivity.
Defined.



(** ** server.py: the two routes that execute code

    The documents of the three collections are records with the fields that
    these routes read or write; a collection is the list of its documents in
    the order of their insertion; [find_one] and [update_one] take the first
    document that matches, [insert_one] adds at the end, and the database
    itself does not fail. *)

Module Server.

Inductive DifficultyEnum : Set := EASY | MEDIUM | HARD.

Record Example : Type := {
  example_input : str;
  example_output : str;
  explanation : option str
}.

Module Problem.
Record t : Type := {
  id : str;
  number : Z;
  title : str;
  difficulty : DifficultyEnum;
  examples : list Example;
  test_cases : list TestCase;
  total_submissions : Z;
  accepted_submissions : Z
}.
End Problem.

Module User.
Record t : Type := {
  id : str;
  username : str;
  total_solved : Z;
  easy_solved : Z;
  medium_solved : Z;
  hard_solved : Z
}.
End User.

Module Submission.
Record t : Type := {
  id : str;
  user_id : str;
  problem_id : str;
  language : LanguageEnum;
  code : str;
  status : SubmissionStatusEnum;
  runtime : option float;
  memory : option float;
  passed_test_cases : Z;
  total_test_cases : Z;
  error_message : option str;
  submitted_at : Q
}.
End Submission.

Module CodeExecutionRequest.
Record t : Type := {
  problem_id : str;
  language : LanguageEnum;
  code : str;
  test_input : option str
}.
End CodeExecutionRequest.

Module SubmissionCreate.
Record t : Type := {
  problem_id : str;
  language : LanguageEnum;
  code : str
}.
End SubmissionCreate.

Record Db : Type := {
  problems : list Problem.t;
  submissions : list Submission.t;
  users : list User.t
}.

Definition find_one {A : Type} (matches : A -> bool) (l : list A)
  : option A :=
  List.find matches l.

Definition insert_one {A : Type} (x : A) (l : list A) : list A := l ++ [x].

Fixpoint update_one {A : Type} (matches : A -> bool) (change : A -> A)
  (l : list A) : list A :=
  match l with
  | [] => []
  | x :: l' =>
      if matches x then change x :: l' else x :: update_one matches change l'
  end.

(** [{"$inc": {"total_submissions": 1}}] and its like. *)
Definition inc_total_submissions (p : Problem.t) : Problem.t :=
  {| Problem.id := Problem.id p;
     Problem.number := Problem.number p;
     Problem.title := Problem.title p;
     Problem.difficulty := Problem.difficulty p;
     Problem.examples := Problem.examples p;
     Problem.test_cases := Problem.test_cases p;
     Problem.total_submissions := Problem.total_submissions p + 1;
     Problem.accepted_submissions := Problem.accepted_submissions p |}.

Definition inc_accepted_submissions (p : Problem.t) : Problem.t :=
  {| Problem.id := Problem.id p;
     Problem.number := Problem.number p;
     Problem.title := Problem.title p;
     Problem.difficulty := Problem.difficulty p;
     Problem.examples := Problem.examples p;
     Problem.test_cases := Problem.test_cases p;
     Problem.total_submissions := Problem.total_submissions p;
     Problem.accepted_submissions := Problem.accepted_submissions p + 1 |}.

(** [{"$inc": {"total_solved": 1, "<difficulty>_solved": 1}}] *)
Definition inc_solved (difficulty : DifficultyEnum) (u : User.t) : User.t :=
  {| User.id := User.id u;
     User.username := User.username u;
     User.total_solved := User.total_solved u + 1;
     User.easy_solved :=
       match difficulty with
       | EASY => User.easy_solved u + 1
       | _ => User.easy_solved u
       end;
     User.medium_solved :=
       match difficulty with
       | MEDIUM => User.medium_solved u + 1
       | _ => User.medium_solved u
       end;
     User.hard_solved :=
       match difficulty with
       | HARD => User.hard_solved u + 1
       | _ => User.hard_solved u
       end |}.

(** What a route answers: a value, an [HTTPException], or an exception that
    nothing handles. *)
Inductive Reply (A : Type) : Type :=
| Ok (a : A)
| HTTPException (status_code : Z) (detail : str)
| Unhandled (e : Exception).

Arguments Ok {A} a.
Arguments HTTPException {A} status_code detail.
Arguments Unhandled {A} e.

(** The host of the executor, with the two services that a new
    [Submission] calls for its defaults. *)
Record Services (World : Type) : Type := {
  os : Host World;
  uuid4 : World -> str * World;
  utcnow : World -> Q * World
}.

Arguments os {World} s.
Arguments uuid4 {World} s _.
Arguments utcnow {World} s _.

(** [code_executor = CodeExecutor()] *)
Definition code_executor : CodeExecutor := CodeExecutor__init__.

Section Routes.

Context {World : Type} (services : Services World).

Definition has_id (problem_id : str) (p : Problem.t) : bool :=
  Str.eqb (Problem.id p) problem_id.

Definition run_code (request : CodeExecutionRequest.t)
  (current_user : User.t) (s : World * Db)
  : Reply CodeExecutionResult * (World * Db) :=
  let (w, db) := s in
  match find_one (has_id (CodeExecutionRequest.problem_id request))
          (problems db) with
  | None => (HTTPException 404 (lit "Problem not found"), (w, db))
  | Some problem =>
      let execute := fun test_input =>
        match execute_code (os services) code_executor
                (value (CodeExecutionRequest.language request))
                (CodeExecutionRequest.code request) test_input w with
        | (Returned result, w') => (Ok result, (w', db))
        | (Raised e, w') => (Unhandled e, (w', db))
        end in
      match CodeExecutionRequest.test_input request with
      | Some (c :: text) => execute (c :: text)
      | _ =>
          match Problem.examples problem with
          | example :: _ => execute (example_input example)
          | [] => execute []
          end
      end
  end.

(** The cases that a submission is graded on. *)
Definition graded_cases (problem : Problem.t) : list TestCase :=
  match Problem.test_cases problem with
  | _ :: _ => Problem.test_cases problem
  | [] =>
      match Problem.examples problem with
      | example :: _ =>
          [{| input := example_input example;
              expected_output := example_output example;
              is_hidden := false |}]
      | [] => []
      end
  end.

Definition is_accepted_by (user_id problem_id : str) (s : Submission.t)
  : bool :=
  Str.eqb (Submission.user_id s) user_id
  && Str.eqb (Submission.problem_id s) problem_id
  && status_eqb (Submission.status s) ACCEPTED.

Definition submit_code (request : SubmissionCreate.t)
  (current_user : User.t) (s : World * Db)
  : Reply Submission.t * (World * Db) :=
  let (w, db) := s in
  let problem_id := SubmissionCreate.problem_id request in
  match find_one (has_id problem_id) (problems db) with
  | None => (HTTPException 404 (lit "Problem not found"), (w, db))
  | Some problem =>
      let test_cases := graded_cases problem in
      match test_solution (os services) code_executor
              (value (SubmissionCreate.language request))
              (SubmissionCreate.code request) test_cases w with
      | (Raised e, w1) => (Unhandled e, (w1, db))
      | (Returned result, w1) =>
          let (new_id, w2) := uuid4 services w1 in
          let (now, w3) := utcnow services w2 in
          let submission :=
            {| Submission.id := new_id;
               Submission.user_id := User.id current_user;
               Submission.problem_id := problem_id;
               Submission.language := SubmissionCreate.language request;
               Submission.code := SubmissionCreate.code request;
               Submission.status := status result;
               Submission.runtime := runtime result;
               Submission.memory := memory result;
               Submission.passed_test_cases := passed_tests result;
               Submission.total_test_cases := total_tests result;
               Submission.error_message := error_message result;
               Submission.submitted_at := now |} in
          let submissions1 := insert_one submission (submissions db) in
          let problems1 :=
            update_one (has_id problem_id) inc_total_submissions
              (problems db) in
          if status_eqb (status result) ACCEPTED
          then
            let problems2 :=
              update_one (has_id problem_id) inc_accepted_submissions
                problems1 in
            let difficulty := Problem.difficulty problem in
            let existing_accepted :=
              find_one (is_accepted_by (User.id current_user) problem_id)
                submissions1 in
            let first :=
              match existing_accepted with
              | None => true
              | Some existing =>
                  Str.eqb (Submission.id existing) (Submission.id submission)
              end in
            let users1 :=
              if first
              then update_one
                     (fun u => Str.eqb (User.id u) (User.id current_user))
                     (inc_solved difficulty) (users db)
              else users db in
            (Ok submission,
             (w3, {| problems := problems2;
                     submissions := submissions1;
                     users := users1 |}))
          else
            (Ok submission,
             (w3, {| problems := problems1;
                     submissions := submissions1;
                     users := users db |}))
      end
  end.

End Routes.

End Server.

(** *** Facts on collections *)

Lemma test_solution_returns {World : Type} (host : Host World)
  (self : CodeExecutor) (language code : str) (test_cases : list TestCase)
  (w : World) :
  exists r w',
    test_solution host self language code test_cases w = (Returned r, w').
Proof.
  destruct (test_solution_outcome host self language code test_cases w)
    as [(_ & r & Hr & _)
       | (_ & pre & tc & post & r1 & w1 & _ & _ & _ & _ & _ & Hr)];
    rewrite Hr; eauto.
Qed.

Lemma find_one_absent (pid : str) (l : list Server.Problem.t) :
  Forall (fun p => Server.Problem.id p <> pid) l ->
  Server.find_one (Server.has_id pid) l = None.
Proof.
  unfold Server.find_one, Server.has_id.
  induction 1 as [|p l Hp _ IH]; cbn [List.find]; [reflexivity|].
  apply eqb_neq in Hp. rewrite Hp. exact IH.
Qed.

Lemma find_one_update_one (A : Type) (matches : A -> bool) (change : A -> A)
  (l : list A) :
  (forall x, matches x = true -> matches (change x) = true) ->
  Server.find_one matches (Server.update_one matches change l)
  = option_map change (Server.find_one matches l).
Proof.
  intros Hkeep. unfold Server.find_one.
  induction l as [|x l IH]; cbn [Server.update_one List.find option_map];
    [reflexivity|].
  destruct (matches x) eqn:Hx; cbn [List.find].
  - rewrite (Hkeep x Hx). reflexivity.
  - rewrite Hx. exact IH.
Qed.

Lemma update_one_length (A : Type) (matches : A -> bool) (change : A -> A)
  (l : list A) :
  List.length (Server.update_one matches change l) = List.length l.
Proof.
  induction l as [|x l IH]; cbn [Server.update_one List.length];
    [reflexivity|].
  destruct (matches x); cbn [List.length]; congruence.
Qed.

Lemma find_one_app_none (A : Type) (matches : A -> bool) (l : list A)
  (x : A) :
  Server.find_one matches l = None ->
  Server.find_one matches (l ++ [x])
  = if matches x then Some x else None.
Proof.
  unfold Server.find_one. induction l as [|y l IH]; cbn [List.find app].
  - intros _. reflexivity.
  - destruct (matches y); [discriminate | exact IH].
Qed.

Lemma find_one_app_some (A : Type) (matches : A -> bool) (l : list A)
  (x y : A) :
  Server.find_one matches l = Some y ->
  Server.find_one matches (l ++ [x]) = Some y.
Proof.
  unfold Server.find_one. induction l as [|z l IH]; cbn [List.find app].
  - discriminate.
  - destruct (matches z); [intros H; exact H | exact IH].
Qed.

(** A small server: the toy host, one identifier and one date. *)
Module ToyServer.

Definition services : Server.Services Toy.World := {|
  Server.os := Toy.host;
  Server.uuid4 := fun w => (lit "7d0c1d1e-0000-4000-8000-000000000001", w);
  Server.utcnow := fun w => (1700000000, w)
|}.

Definition ada : Server.User.t := {|
  Server.User.id := lit "u1";
  Server.User.username := lit "ada";
  Server.User.total_solved := 0;
  Server.User.easy_solved := 0;
  Server.User.medium_solved := 0;
  Server.User.hard_solved := 0
|}.

Definition inverse : Server.Problem.t := {|
  Server.Problem.id := lit "p1";
  Server.Problem.number := 1;
  Server.Problem.title := lit "Inverse";
  Server.Problem.difficulty := Server.EASY;
  Server.Problem.examples :=
    [{| Server.example_input := lit "1";
        Server.example_output := lit "1";
        Server.explanation := None |}];
  Server.Problem.test_cases := [Toy.case "1" "1"; Toy.case "0" "0"];
  Server.Problem.total_submissions := 0;
  Server.Problem.accepted_submissions := 0
|}.

(** A problem with neither test cases nor examples. *)
Definition bare : Server.Problem.t := {|
  Server.Problem.id := lit "p2";
  Server.Problem.number := 2;
  Server.Problem.title := lit "Bare";
  Server.Problem.difficulty := Server.HARD;
  Server.Problem.examples := [];
  Server.Problem.test_cases := [];
  Server.Problem.total_submissions := 0;
  Server.Problem.accepted_submissions := 0
|}.

(** A problem with an example only. *)
Definition sample : Server.Problem.t := {|
  Server.Problem.id := lit "p3";
  Server.Problem.number := 3;
  Server.Problem.title := lit "Sample";
  Server.Problem.difficulty := Server.MEDIUM;
  Server.Problem.examples :=
    [{| Server.example_input := lit "1";
        Server.example_output := lit "1";
        Server.explanation := None |}];
  Server.Problem.test_cases := [];
  Server.Problem.total_submissions := 0;
  Server.Problem.accepted_submissions := 0
|}.

Definition db : Server.Db := {|
  Server.problems := [inverse; bare; sample];
  Server.submissions := [];
  Server.users := [ada]
|}.

Definition submit (problem_id : string) (code : str)
  : Server.SubmissionCreate.t :=
  {| Server.SubmissionCreate.problem_id := lit problem_id;
     Server.SubmissionCreate.language := PYTHON;
     Server.SubmissionCreate.code := code |}.

Definition run (problem_id : string) (code : str) (test_input : option str)
  : Server.CodeExecutionRequest.t :=
  {| Server.CodeExecutionRequest.problem_id := lit problem_id;
     Server.CodeExecutionRequest.language := PYTHON;
     Server.CodeExecutionRequest.code := code;
     Server.CodeExecutionRequest.test_input := test_input |}.

End ToyServer.

(** *** The routes *)

(** X14: when no problem has the requested identifier, both routes answer
    with the HTTP exception 404 "Problem not found"; nothing is executed and
    nothing is stored. *)
Theorem unknown_problem_is_not_found {World : Type}
  (services : Server.Services World)
  (run : Server.CodeExecutionRequest.t) (submit : Server.SubmissionCreate.t)
  (current_user : Server.User.t) (w : World) (db : Server.Db) :
  Forall (fun p => Server.Problem.id p
                   <> Server.CodeExecutionRequest.problem_id run)
    (Server.problems db) ->
  Forall (fun p => Server.Problem.id p
                   <> Server.SubmissionCreate.problem_id submit)
    (Server.problems db) ->
  Server.run_code services run current_user (w, db)
  = (Server.HTTPException 404 (lit "Problem not found"), (w, db)) /\
  Server.submit_code services submit current_user (w, db)
  = (Server.HTTPException 404 (lit "Problem not found"), (w, db)).
Proof.
  intros Hrun Hsubmit. unfold Server.run_code, Server.submit_code.
  rewrite (find_one_absent Hrun), (find_one_absent Hsubmit).
  split; reflexivity.
Qed.

Lemma unknown_problem_is_not_found_witness :
  Server.run_code ToyServer.services
    (ToyServer.run "p9" Toy.divider None) ToyServer.ada
    (Toy.boot, ToyServer.db)
  = (Server.HTTPException 404 (lit "Problem not found"),
     (Toy.boot, ToyServer.db)) /\
  Server.submit_code ToyServer.services
    (ToyServer.submit "p9" Toy.divider) ToyServer.ada
    (Toy.boot, ToyServer.db)
  = (Server.HTTPException 404 (lit "Problem not found"),
     (Toy.boot, ToyServer.db)).
Proof.
  apply (@unknown_problem_is_not_found _ ToyServer.services
           (ToyServer.run "p9" Toy.divider None)
           (ToyServer.submit "p9" Toy.divider) ToyServer.ada Toy.boot
           ToyServer.db).
  - repeat constructor; vm_compute; discriminate.
  - repeat constructor; vm_compute; discriminate.
Defined.

(** The input that [run_code] executes the code on. *)
Definition run_input (test_input : option str) (problem : Server.Problem.t)
  : str :=
  match test_input with
  | Some (c :: text) => c :: text
  | _ =>
      match Server.Problem.examples problem with
      | example :: _ => Server.example_input example
      | [] => []
      end
  end.

(** X15: for a known problem [run_code] answers with the result of one
    execution and leaves the database as it is; no exception leaves it. The
    input of that execution is the test input of the request when there is
    one that is not empty, otherwise the input of the first example of the
    problem, otherwise the empty text. *)
Theorem run_code_executes_once {World : Type}
  (services : Server.Services World) (request : Server.CodeExecutionRequest.t)
  (current_user : Server.User.t) (w : World) (db : Server.Db)
  (problem : Server.Problem.t) :
  Server.find_one
    (Server.has_id (Server.CodeExecutionRequest.problem_id request))
    (Server.problems db) = Some problem ->
  exists r w',
    execute_code (Server.os services) Server.code_executor
      (value (Server.CodeExecutionRequest.language request))
      (Server.CodeExecutionRequest.code request)
      (run_input (Server.CodeExecutionRequest.test_input request) problem) w
    = (Returned r, w') /\
    Server.run_code services request current_user (w, db)
    = (Server.Ok r, (w', db)).
Proof.
  intros Hfind.
  destruct (execute_code_returns (Server.os services) Server.code_executor
              (value (Server.CodeExecutionRequest.language request))
              (Server.CodeExecutionRequest.code request)
              (run_input (Server.CodeExecutionRequest.test_input request)
                 problem) w) as (r & w' & Hrun).
  exists r, w'. split; [exact Hrun|].
  unfold Server.run_code. rewrite Hfind. unfold run_input in Hrun.
  destruct (Server.CodeExecutionRequest.test_input request) as [[|c text]|];
    try (rewrite Hrun; reflexivity);
    destruct (Server.Problem.examples problem) as [|example rest];
    rewrite Hrun; reflexivity.
Qed.

Lemma run_code_executes_once_witness :
  exists r w',
    execute_code Toy.host CodeExecutor__init__ (value PYTHON) Toy.divider
      (lit "1") Toy.boot
    = (Returned r, w') /\
    Server.run_code ToyServer.services
      (ToyServer.run "p1" Toy.divider (Some [])) ToyServer.ada
      (Toy.boot, ToyServer.db)
    = (Server.Ok r, (w', ToyServer.db)) /\
    status r = ACCEPTED.
Proof.
  destruct (@run_code_executes_once _ ToyServer.services
              (ToyServer.run "p1" Toy.divider (Some [])) ToyServer.ada
              Toy.boot ToyServer.db ToyServer.inverse)
    as (r & w' & Hrun & Hroute).
  - reflexivity.
  - exists r, w'. split; [exact Hrun|]. split; [exact Hroute|].
    vm_compute in Hrun. injection Hrun as <- _. reflexivity.
Defined.

(** The cases that a submission is to be graded on: the test cases of the
    problem and, when it has none, one case made of the input and the
    output of its first example, or no case when it has no example
    either. *)
Definition cases_or_first_example (problem : Server.Problem.t)
  : list TestCase :=
  if Nat.eqb (List.length (Server.Problem.test_cases problem)) 0
  then match hd_error (Server.Problem.examples problem) with
       | Some example =>
           [{| input := Server.example_input example;
               expected_output := Server.example_output example;
               is_hidden := false |}]
       | None => []
       end
  else Server.Problem.test_cases problem.

Lemma graded_cases_spec (problem : Server.Problem.t) :
  Server.graded_cases problem = cases_or_first_example problem.
Proof.
  unfold Server.graded_cases, cases_or_first_example.
  destruct (Server.Problem.test_cases problem) as [|tc cases];
    [|reflexivity].
  destruct (Server.Problem.examples problem); reflexivity.
Qed.

(** X16: for a known problem [submit_code] grades the code once, on the test
    cases of the problem and, when it has none, on the one case made of its
    first example (on no case when it has no example either), and answers
    with the new submission. That submission is added at the end of the
    collection; it carries the user, the problem, the language and the code
    of the request and the status, runtime, memory, counts and message of
    the result. The problem gets one more submission and, when the verdict
    is Accepted and only then, one more accepted submission. When the
    verdict is not Accepted the users are left as they are. *)
Theorem submit_code_stores_the_result {World : Type}
  (services : Server.Services World) (request : Server.SubmissionCreate.t)
  (current_user : Server.User.t) (w : World) (db : Server.Db)
  (problem : Server.Problem.t) (result : CodeExecutionResult) (w1 : World) :
  Server.find_one
    (Server.has_id (Server.SubmissionCreate.problem_id request))
    (Server.problems db) = Some problem ->
  test_solution (Server.os services) Server.code_executor
    (value (Server.SubmissionCreate.language request))
    (Server.SubmissionCreate.code request) (cases_or_first_example problem) w
  = (Returned result, w1) ->
  exists submission db' problem',
    Server.submit_code services request current_user (w, db)
    = (Server.Ok submission,
       (snd (Server.utcnow services (snd (Server.uuid4 services w1))), db')) /\
    Server.submissions db' = Server.submissions db ++ [submission] /\
    submission
    = {| Server.Submission.id := fst (Server.uuid4 services w1);
         Server.Submission.user_id := Server.User.id current_user;
         Server.Submission.problem_id :=
           Server.SubmissionCreate.problem_id request;
         Server.Submission.language :=
           Server.SubmissionCreate.language request;
         Server.Submission.code := Server.SubmissionCreate.code request;
         Server.Submission.status := status result;
         Server.Submission.runtime := runtime result;
         Server.Submission.memory := memory result;
         Server.Submission.passed_test_cases := passed_tests result;
         Server.Submission.total_test_cases := total_tests result;
         Server.Submission.error_message := error_message result;
         Server.Submission.submitted_at :=
           fst (Server.utcnow services (snd (Server.uuid4 services w1))) |} /\
    Server.find_one
      (Server.has_id (Server.SubmissionCreate.problem_id request))
      (Server.problems db') = Some problem' /\
    List.length (Server.problems db') = List.length (Server.problems db) /\
    Server.Problem.total_submissions problem'
    = (Server.Problem.total_submissions problem + 1)%Z /\
    Server.Problem.accepted_submissions problem'
    = (Server.Problem.accepted_submissions problem
       + if status_eqb (status result) ACCEPTED then 1 else 0)%Z /\
    (status result <> ACCEPTED -> Server.users db' = Server.users db).
Proof.
  intros Hfind Hts. unfold Server.submit_code.
  rewrite Hfind, graded_cases_spec, Hts.
  destruct (Server.uuid4 services w1) as [new_id w2]. cbn [fst snd].
  destruct (Server.utcnow services w2) as [now w3]. cbn [fst snd].
  assert (Hkeep1 : forall x,
             Server.has_id (Server.SubmissionCreate.problem_id request) x
             = true ->
             Server.has_id (Server.SubmissionCreate.problem_id request)
               (Server.inc_total_submissions x) = true)
    by (intros x Hx; exact Hx).
  assert (Hkeep2 : forall x,
             Server.has_id (Server.SubmissionCreate.problem_id request) x
             = true ->
             Server.has_id (Server.SubmissionCreate.problem_id request)
               (Server.inc_accepted_submissions x) = true)
    by (intros x Hx; exact Hx).
  destruct (status_eqb (status result) ACCEPTED) eqn:Hacc.
  - eexists. eexists. eexists. split; [reflexivity|].
    cbn [Server.submissions Server.problems Server.users].
    split; [reflexivity|]. split; [reflexivity|].
    split.
    { rewrite (find_one_update_one _ _ _ Hkeep2),
        (find_one_update_one _ _ _ Hkeep1), Hfind. reflexivity. }
    rewrite !update_one_length.
    split; [reflexivity|]. split; [reflexivity|]. split; [reflexivity|].
    intros Hne. apply status_eqb_true in Hacc. contradiction.
  - eexists. eexists. eexists. split; [reflexivity|].
    cbn [Server.submissions Server.problems Server.users].
    split; [reflexivity|]. split; [reflexivity|].
    split.
    { rewrite (find_one_update_one _ _ _ Hkeep1), Hfind. reflexivity. }
    rewrite !update_one_length.
    split; [reflexivity|]. split; [reflexivity|].
    split; [cbn; lia|]. intros _. reflexivity.
Qed.

Lemma submit_code_stores_the_result_witness :
  exists submission db' problem',
    Server.submit_code ToyServer.services
      (ToyServer.submit "p3" Toy.divider) ToyServer.ada
      (Toy.boot, ToyServer.db)
    = (Server.Ok submission,
       ({| Toy.disk_full := false; Toy.files := [];
           Toy.clock := 100.015625 |}, db')) /\
    Server.submissions db' = [submission] /\
    Server.Submission.status submission = ACCEPTED /\
    Server.Submission.runtime submission = Some 15.625%float /\
    Server.Submission.passed_test_cases submission = 1%Z /\
    Server.Submission.total_test_cases submission = 1%Z /\
    Server.find_one (Server.has_id (lit "p3")) (Server.problems db')
    = Some problem' /\
    Server.Problem.total_submissions problem' = 1%Z /\
    Server.Problem.accepted_submissions problem' = 1%Z.
Proof.
  destruct (@submit_code_stores_the_result _ ToyServer.services
              (ToyServer.submit "p3" Toy.divider) ToyServer.ada Toy.boot
              ToyServer.db ToyServer.sample
              {| status := ACCEPTED;
                 output := lit "All test cases passed!" ++ nl
                           ++ lit "Average Runtime: " ++ lit "15.62"
                           ++ lit "ms";
                 runtime := Some 15.625%float;
                 memory := None;
                 passed_tests := 1;
                 total_tests := 1;
                 error_message := None |}
              {| Toy.disk_full := false; Toy.files := [];
                 Toy.clock := 100.015625 |})
    as (submission & db' & problem' & Hroute & Hsubs & Hsub & Hfind & _
        & Htotal & Hacc & _).
  - reflexivity.
  - vm_compute. reflexivity.
  - exists submission, db', problem'.
    split; [exact Hroute|]. split; [exact Hsubs|].
    rewrite Hsub. cbn [Server.Submission.status Server.Submission.runtime
                         Server.Submission.passed_test_cases
                         Server.Submission.total_test_cases status runtime
                         passed_tests total_tests].
    repeat split; assumption.
Defined.

(** The database that a route leaves. *)
Definition db_after {World A : Type}
  (r : Server.Reply A * (World * Server.Db)) : Server.Db :=
  snd (snd r).

Definition is_user (u : Server.User.t) (x : Server.User.t) : bool :=
  Str.eqb (Server.User.id x) (Server.User.id u).

(** X17: when the verdict is Accepted and the collection holds no accepted
    submission of this user for this problem, the user's [total_solved] and
    the counter of the difficulty of the problem each grow by one, the two
    other counters stay. *)
Theorem first_accepted_submission_is_counted {World : Type}
  (services : Server.Services World) (request : Server.SubmissionCreate.t)
  (current_user : Server.User.t) (w : World) (db : Server.Db)
  (problem : Server.Problem.t) (result : CodeExecutionResult) (w1 : World)
  (u : Server.User.t) :
  Server.find_one
    (Server.has_id (Server.SubmissionCreate.problem_id request))
    (Server.problems db) = Some problem ->
  test_solution (Server.os services) Server.code_executor
    (value (Server.SubmissionCreate.language request))
    (Server.SubmissionCreate.code request) (Server.graded_cases problem) w
  = (Returned result, w1) ->
  status result = ACCEPTED ->
  Server.find_one
    (Server.is_accepted_by (Server.User.id current_user)
       (Server.SubmissionCreate.problem_id request))
    (Server.submissions db) = None ->
  Server.find_one (is_user current_user) (Server.users db) = Some u ->
  exists u',
    Server.find_one (is_user current_user)
      (Server.users
         (db_after (Server.submit_code services request current_user (w, db))))
    = Some u' /\
    Server.User.total_solved u' = (Server.User.total_solved u + 1)%Z /\
    Server.User.easy_solved u'
    = (Server.User.easy_solved u
       + match Server.Problem.difficulty problem with
         | Server.EASY => 1 | _ => 0
         end)%Z /\
    Server.User.medium_solved u'
    = (Server.User.medium_solved u
       + match Server.Problem.difficulty problem with
         | Server.MEDIUM => 1 | _ => 0
         end)%Z /\
    Server.User.hard_solved u'
    = (Server.User.hard_solved u
       + match Server.Problem.difficulty problem with
         | Server.HARD => 1 | _ => 0
         end)%Z.
Proof.
  intros Hfind Hts Hacc Hnone Hu. unfold db_after, Server.submit_code.
  rewrite Hfind, Hts.
  destruct (Server.uuid4 services w1) as [new_id w2].
  destruct (Server.utcnow services w2) as [now w3].
  apply status_eqb_true in Hacc. rewrite Hacc.
  unfold Server.insert_one. rewrite (find_one_app_none _ _ _ Hnone).
  unfold Server.is_accepted_by at 1. cbn [Server.Submission.user_id
    Server.Submission.problem_id Server.Submission.status
    Server.Submission.id].
  rewrite !eqb_refl, Hacc. cbn [andb snd Server.users Server.Submission.id].
  rewrite eqb_refl.
  assert (Hkeep : forall x, is_user current_user x = true ->
                            is_user current_user
                              (Server.inc_solved
                                 (Server.Problem.difficulty problem) x) = true)
    by (intros x Hx; exact Hx).
  change (fun u0 : Server.User.t =>
            Str.eqb (Server.User.id u0) (Server.User.id current_user))
    with (is_user current_user).
  rewrite (find_one_update_one _ _ _ Hkeep), Hu. cbn [option_map].
  eexists. split; [reflexivity|].
  cbn [Server.inc_solved Server.User.total_solved Server.User.easy_solved
         Server.User.medium_solved Server.User.hard_solved].
  destruct (Server.Problem.difficulty problem); repeat split; lia.
Qed.

Lemma first_accepted_submission_is_counted_witness :
  exists u',
    Server.find_one (is_user ToyServer.ada)
      (Server.users
         (db_after (Server.submit_code ToyServer.services
                      (ToyServer.submit "p3" Toy.divider) ToyServer.ada
                      (Toy.boot, ToyServer.db))))
    = Some u' /\
    Server.User.total_solved u' = 1%Z /\
    Server.User.easy_solved u' = 0%Z /\
    Server.User.medium_solved u' = 1%Z /\
    Server.User.hard_solved u' = 0%Z.
Proof.
  destruct (@first_accepted_submission_is_counted _ ToyServer.services
              (ToyServer.submit "p3" Toy.divider) ToyServer.ada Toy.boot
              ToyServer.db ToyServer.sample
              {| status := ACCEPTED;
                 output := lit "All test cases passed!" ++ nl
                           ++ lit "Average Runtime: " ++ lit "15.62"
                           ++ lit "ms";
                 runtime := Some 15.625%float;
                 memory := None;
                 passed_tests := 1;
                 total_tests := 1;
                 error_message := None |}
              {| Toy.disk_full := false; Toy.files := [];
                 Toy.clock := 100.015625 |} ToyServer.ada)
    as (u' & Hu' & Ht & He & Hm & Hh).
  - reflexivity.
  - vm_compute. reflexivity.
  - reflexivity.
  - reflexivity.
  - reflexivity.
  - exists u'. repeat split; assumption.
Defined.

(** X18: when the verdict is Accepted and the collection already holds an
    accepted submission of this user for this problem, whose identifier is
    not the new one, the users are left as they are; the problem still gets
    one more accepted submission. *)
Theorem later_accepted_submission_is_not_counted {World : Type}
  (services : Server.Services World) (request : Server.SubmissionCreate.t)
  (current_user : Server.User.t) (w : World) (db : Server.Db)
  (problem : Server.Problem.t) (result : CodeExecutionResult) (w1 : World)
  (earlier : Server.Submission.t) :
  Server.find_one
    (Server.has_id (Server.SubmissionCreate.problem_id request))
    (Server.problems db) = Some problem ->
  test_solution (Server.os services) Server.code_executor
    (value (Server.SubmissionCreate.language request))
    (Server.SubmissionCreate.code request) (Server.graded_cases problem) w
  = (Returned result, w1) ->
  status result = ACCEPTED ->
  Server.find_one
    (Server.is_accepted_by (Server.User.id current_user)
       (Server.SubmissionCreate.problem_id request))
    (Server.submissions db) = Some earlier ->
  Server.Submission.id earlier <> fst (Server.uuid4 services w1) ->
  let db' :=
    db_after (Server.submit_code services request current_user (w, db)) in
  Server.users db' = Server.users db /\
  exists problem',
    Server.find_one
      (Server.has_id (Server.SubmissionCreate.problem_id request))
      (Server.problems db') = Some problem' /\
    Server.Problem.accepted_submissions problem'
    = (Server.Problem.accepted_submissions problem + 1)%Z.
Proof.
  intros Hfind Hts Hacc Hsome Hfresh. unfold db_after, Server.submit_code.
  rewrite Hfind, Hts.
  destruct (Server.uuid4 services w1) as [new_id w2]. cbn [fst] in Hfresh.
  destruct (Server.utcnow services w2) as [now w3].
  apply status_eqb_true in Hacc. rewrite Hacc.
  unfold Server.insert_one. rewrite (find_one_app_some _ _ _ Hsome).
  cbn [Server.Submission.id]. apply eqb_neq in Hfresh. rewrite Hfresh.
  cbn [snd Server.users Server.problems]. split; [reflexivity|].
  assert (Hkeep1 : forall x,
             Server.has_id (Server.SubmissionCreate.problem_id request) x
             = true ->
             Server.has_id (Server.SubmissionCreate.problem_id request)
               (Server.inc_total_submissions x) = true)
    by (intros x Hx; exact Hx).
  assert (Hkeep2 : forall x,
             Server.has_id (Server.SubmissionCreate.problem_id request) x
             = true ->
             Server.has_id (Server.SubmissionCreate.problem_id request)
               (Server.inc_accepted_submissions x) = true)
    by (intros x Hx; exact Hx).
  rewrite (find_one_update_one _ _ _ Hkeep2),
    (find_one_update_one _ _ _ Hkeep1), Hfind.
  eexists. split; reflexivity.
Qed.

Lemma later_accepted_submission_is_not_counted_witness :
  let earlier :=
    {| Server.Submission.id := lit "7d0c1d1e-0000-4000-8000-000000000000";
       Server.Submission.user_id := lit "u1";
       Server.Submission.problem_id := lit "p3";
       Server.Submission.language := PYTHON;
       Server.Submission.code := Toy.divider;
       Server.Submission.status := ACCEPTED;
       Server.Submission.runtime := Some 20%float;
       Server.Submission.memory := None;
       Server.Submission.passed_test_cases := 1;
       Server.Submission.total_test_cases := 1;
       Server.Submission.error_message := None;
       Server.Submission.submitted_at := 99 |} in
  let db :=
    {| Server.problems := Server.problems ToyServer.db;
       Server.submissions := [earlier];
       Server.users := Server.users ToyServer.db |} in
  let db' :=
    db_after (Server.submit_code ToyServer.services
                (ToyServer.submit "p3" Toy.divider) ToyServer.ada
                (Toy.boot, db)) in
  Server.users db' = Server.users db /\
  exists problem',
    Server.find_one (Server.has_id (lit "p3")) (Server.problems db')
    = Some problem' /\
    Server.Problem.accepted_submissions problem' = (0 + 1)%Z.
Proof.
  intros earlier db.
  refine (@later_accepted_submission_is_not_counted _ ToyServer.services
            (ToyServer.submit "p3" Toy.divider) ToyServer.ada Toy.boot
            db ToyServer.sample
            {| status := ACCEPTED;
               output := lit "All test cases passed!" ++ nl
                         ++ lit "Average Runtime: " ++ lit "15.62"
                         ++ lit "ms";
               runtime := Some 15.625%float;
               memory := None;
               passed_tests := 1;
               total_tests := 1;
               error_message := None |}
            {| Toy.disk_full := false; Toy.files := [];
               Toy.clock := 100.015625 |} earlier _ _ _ _ _).
  - reflexivity.
  - vm_compute. reflexivity.
  - reflexivity.
  - reflexivity.
  - vm_compute. discriminate.
Defined.

(** X19: a submission to a problem that has neither test cases nor examples
    is Accepted whatever its language and its code: nothing is executed
    (the host only serves the identifier and the time of the new
    submission), and the submission is stored as Accepted with 0 cases
    passed out of 0 and runtime 0. *)
Theorem problem_without_cases_accepts_anything {World : Type}
  (services : Server.Services World) (request : Server.SubmissionCreate.t)
  (current_user : Server.User.t) (w : World) (db : Server.Db)
  (problem : Server.Problem.t) :
  Server.find_one
    (Server.has_id (Server.SubmissionCreate.problem_id request))
    (Server.problems db) = Some problem ->
  Server.Problem.test_cases problem = [] ->
  Server.Problem.examples problem = [] ->
  exists submission db',
    Server.submit_code services request current_user (w, db)
    = (Server.Ok submission,
       (snd (Server.utcnow services (snd (Server.uuid4 services w))), db')) /\
    Server.submissions db' = Server.submissions db ++ [submission] /\
    Server.Submission.status submission = ACCEPTED /\
    Server.Submission.passed_test_cases submission = 0%Z /\
    Server.Submission.total_test_cases submission = 0%Z /\
    Server.Submission.runtime submission = Some 0%float.
Proof.
  intros Hfind Hcases Hexamples. unfold Server.submit_code.
  rewrite Hfind. unfold Server.graded_cases. rewrite Hcases, Hexamples.
  unfold test_solution. cbn [List.length Z.of_nat for_test_case].
  change (0 >? 0)%Z with false. unfold bind, ret. cbv beta iota.
  destruct (Server.uuid4 services w) as [new_id w2]. cbn [fst snd].
  destruct (Server.utcnow services w2) as [now w3]. cbn [fst snd status].
  change (status_eqb ACCEPTED ACCEPTED) with true. cbv beta iota.
  eexists. eexists. split; [reflexivity|].
  cbn [Server.submissions]. repeat split.
Qed.

Lemma problem_without_cases_accepts_anything_witness :
  exists submission db',
    Server.submit_code ToyServer.services
      (ToyServer.submit "p2" Toy.spinner) ToyServer.ada
      (Toy.boot, ToyServer.db)
    = (Server.Ok submission, (Toy.boot, db')) /\
    Server.submissions db' = [submission] /\
    Server.Submission.status submission = ACCEPTED /\
    Server.Submission.passed_test_cases submission = 0%Z /\
    Server.Submission.total_test_cases submission = 0%Z /\
    Server.Submission.runtime submission = Some 0%float.
Proof.
  apply (@problem_without_cases_accepts_anything _ ToyServer.services
           (ToyServer.submit "p2" Toy.spinner) ToyServer.ada Toy.boot
           ToyServer.db ToyServer.bare).
  - reflexivity.
  - reflexivity.
  - reflexivity.
Defined.
